(** * stctdauto: the Renko chart dashboard ([app.py])

    A shallow embedding of [app.py] and the properties its specification
    states about it.

    - [PyStr]: the [str] methods the script uses ([strip], [upper],
      [lower], [endswith], [split(sep)[0]], [in]).
    - [Float64]: Python floats as IEEE-754 binary64 values.
    - [Frame]: the fragment of pandas the chart function goes through.
    - [Renko]: [calculate_brick_size] and [fetch_and_plot_renko].
    - [App]: one run of the Streamlit script.

    Text is ASCII: a [string] is a sequence of code points below 128, on
    which [str.upper] and [str.lower] change letters only. *)

From Stdlib Require Import ZArith Lia Bool Ascii String List SpecFloat.
From stdpp Require Import base decidable list sorting gmap strings.

Local Open Scope string_scope.

(** ** Strings *)

Module PyStr.

(** Code points [str.strip] and [str.isspace] treat as white space
    (tab, line feed, vertical tab, form feed, carriage return, the four
    separators 28..31 and the space). *)
Definition is_space (c : ascii) : bool :=
  let n := N_of_ascii c in
  ((9 <=? n) && (n <=? 13) || (28 <=? n) && (n <=? 32))%N.

Definition upper_char (c : ascii) : ascii :=
  let n := N_of_ascii c in
  if ((97 <=? n) && (n <=? 122))%N then ascii_of_N (n - 32) else c.

Definition lower_char (c : ascii) : ascii :=
  let n := N_of_ascii c in
  if ((65 <=? n) && (n <=? 90))%N then ascii_of_N (n + 32) else c.

Fixpoint map_chars (f : ascii -> ascii) (s : string) : string :=
  match s with
  | "" => ""
  | String c s' => String (f c) (map_chars f s')
  end.

(** [s.upper()] and [s.lower()] *)
Definition upper : string -> string := map_chars upper_char.
Definition lower : string -> string := map_chars lower_char.

Fixpoint all_space (s : string) : bool :=
  match s with
  | "" => true
  | String c s' => is_space c && all_space s'
  end.

Fixpoint lstrip (s : string) : string :=
  match s with
  | "" => ""
  | String c s' => if is_space c then lstrip s' else s
  end.

Fixpoint rstrip (s : string) : string :=
  match s with
  | "" => ""
  | String c s' => if all_space s then "" else String c (rstrip s')
  end.

(** [s.strip()] *)
Definition strip (s : string) : string := rstrip (lstrip s).

(** Python's truth value of a string: [if s:] *)
Definition truthy (s : string) : bool :=
  match s with "" => false | _ => true end.

(** [s.endswith(suf)] *)
Fixpoint endswith (s suf : string) : bool :=
  String.eqb s suf ||
  match s with
  | "" => false
  | String _ s' => endswith s' suf
  end.

(** [needle in hay] *)
Fixpoint contains (needle hay : string) : bool :=
  String.prefix needle hay ||
  match hay with
  | "" => false
  | String _ hay' => contains needle hay'
  end.

(** [s.split(sep)[0]] for a non-empty [sep]: what precedes the first
    occurrence of [sep], or all of [s] when there is none. *)
Fixpoint split_head (sep s : string) : string :=
  if String.prefix sep s then ""
  else match s with
       | "" => ""
       | String c s' => String c (split_head sep s')
       end.



End PyStr.

(** ** Floats *)

(** A Python [float] (and a numpy [float64]) is an IEEE-754 binary64
    value: 53 bits of precision, exponents up to 1024, results rounded to
    nearest, ties to even. *)
Module Float64.

Definition prec : Z := 53.
Definition emax : Z := 1024.

Definition float : Type := spec_float.

(** A finite value [m * 2^e] is a float when its mantissa is canonical. *)
Definition valid (x : float) : bool := valid_binary prec emax x.

(** [x * y], [x < y], [x <= y] *)
Definition mul (x y : float) : float := SFmul prec emax x y.
Definition ltb (x y : float) : bool := SFltb x y.
Definition leb (x y : float) : bool := SFleb x y.

Definition is_nan (x : float) : bool :=
  match x with S754_nan => true | _ => false end.

Definition zero : float := S754_zero false.
Definition nan : float := S754_nan.

(** The literal [0.01]: [0x1.47ae147ae147bp-7]. *)
Definition hundredth : float := S754_finite false 5764607523034235 (-59).

(** The least positive float, [2^-1074] (printed [5e-324]). *)
Definition min_subnormal : float := S754_finite false 1 (-1074).

(** [50 * 2^-1074] (printed [2.47e-322]). *)
Definition brick_threshold : float := S754_finite false 50 (-1074).

End Float64.

(** ** Exceptions *)

(** A raised [Exception]: its class and [str(e)]. *)
Record exn : Type := mk_exn { exn_class : string; exn_str : string }.

(** What a call into a library gives back: a value, or an [Exception]. *)
Inductive reply (A : Type) : Type :=
  | Ok (a : A)
  | Fails (e : exn).
Arguments Ok {A} a.
Arguments Fails {A} e.

(** How a block of statements of the script ends: it falls through with a
    value, raises an [Exception], or is stopped by [st.rerun()], which no
    [except Exception] handler catches. *)
Inductive outcome (A : Type) : Type :=
  | Ret (a : A)
  | Raise (e : exn)
  | Rerun.
Arguments Ret {A} a.
Arguments Raise {A} e.
Arguments Rerun {A}.

Definition of_reply {A} (r : reply A) : outcome A :=
  match r with Ok a => Ret a | Fails e => Raise e end.

(** ** Data frames *)

Module Frame.
Import Float64.

(** A cell as the provider hands it over: one that
    [pd.to_numeric(errors="coerce")] reads as the number [x], or one it
    coerces to NaN ([None], text that is not a number). *)
Inductive value : Type :=
  | Num (x : float)
  | Bad.

(** Column labels: plain, or a two-level [pd.MultiIndex]. *)
Inductive labels : Type :=
  | Flat (names : list string)
  | Multi (tuples : list (string * string)).

(** The provider's frame; every row has one cell per column. The date
    index is left out: the code never looks at it. *)
Record raw : Type := mk_raw { raw_columns : labels; raw_rows : list (list value) }.

(** The frame after cleaning, as handed to the renderer. *)
Record clean : Type := mk_clean { columns : list string; rows : list (list float) }.

Definition n_columns (l : labels) : nat :=
  match l with Flat ns => length ns | Multi ts => length ts end.

(** [data.empty]: some axis has length 0 *)
Definition raw_empty (d : raw) : bool :=
  (n_columns (raw_columns d) =? 0)%nat || (length (raw_rows d) =? 0)%nat.

Definition empty (d : clean) : bool :=
  (length (columns d) =? 0)%nat || (length (rows d) =? 0)%nat.

(** [if isinstance(data.columns, pd.MultiIndex):
       data.columns = [col[0] for col in data.columns]] *)
Definition flatten (l : labels) : list string :=
  match l with Flat ns => ns | Multi ts => map fst ts end.

Definition ohlc_cols : list string := ["Open"; "High"; "Low"; "Close"].

(** [[col for col in ohlc_cols if col in data.columns]] *)
Definition wanted (names : list string) : list string :=
  filter (λ col, col ∈ names) ohlc_cols.

(** The cells of [row] under the columns labelled [w]. *)
Definition under {A} (names : list string) (w : string) (row : list A) : list A :=
  map snd (filter (λ p, p.1 = w) (zip names row)).

(** [data[ws]]: for each label of [ws] in turn, the columns that carry it. *)
Definition select_names (names ws : list string) : list string :=
  ws ≫= λ w, filter (λ n, n = w) names.
Definition select_row {A} (names ws : list string) (row : list A) : list A :=
  ws ≫= λ w, under names w row.

(** [pd.to_numeric(errors="coerce")] on a cell *)
Definition to_numeric (v : value) : float :=
  match v with Num x => x | Bad => nan end.

(** [dropna()] keeps the rows without a NaN. *)
Definition has_nan (row : list float) : bool := existsb is_nan row.
Definition dropna (rs : list (list float)) : list (list float) :=
  List.filter (λ r, negb (has_nan r)) rs.

(** Flatten the labels, keep the OHLC columns, coerce, drop. *)
Definition cleaned (d : raw) : clean :=
  let names := flatten (raw_columns d) in
  let ws := wanted names in
  {| columns := select_names names ws;
     rows := dropna (map (λ r, map to_numeric (select_row names ws r)) (raw_rows d)) |}.

(** [data.empty or len(data) < 10] *)
Definition too_short (d : clean) : bool :=
  empty d || (length (rows d) <? 10)%nat.

(** [float(data["Close"].iloc[-1])]: a [KeyError] without a Close column,
    an [IndexError] without a row, a [TypeError] when several columns
    are labelled Close (the last row of a frame is not a scalar). *)
Definition last_close (d : clean) : reply float :=
  if bool_decide ("Close" ∈ columns d) then
    match last (rows d) with
    | None => Fails (mk_exn "IndexError" "single positional indexer is out-of-bounds")
    | Some row =>
        match under (columns d) "Close" row with
        | [x] => Ok x
        | _ => Fails (mk_exn "TypeError" "cannot convert the series to <class 'float'>")
        end
    end
  else Fails (mk_exn "KeyError" "'Close'").

End Frame.

(** ** Effects *)

(** What a run does that can be seen from outside: calls to the market
    data provider and to the plotting library, and the elements put on the
    page. The page's fixed head (title, header, check boxes, style sheet,
    search box) is the same in every run and is not recorded. *)
Inductive event : Type :=
  | Download (ticker : string) (start stop : Z)
  | Plot (data : Frame.clean) (brick_size : Float64.float) (title : string)
  | Savefig
  | ClosePlot
  | OpenSuggestions
  | Button (label : string)
  | CloseSuggestions
  | ErrorBox (msg : string)
  | Write (msg : string)
  | Subheader (msg : string)
  | Image (png : list Byte.byte).

Module Eff.

(** The state a run threads: [st.session_state] (its one key,
    [selected_stock], absent or bound to a string) and the log. *)
Record state : Type := mk_state { session : option string; log : list event }.

Definition M (A : Type) : Type := state -> outcome A * state.

Definition ret {A} (a : A) : M A := λ s, (Ret a, s).

Definition bind {A B} (m : M A) (k : A -> M B) : M B :=
  λ s, match m s with
       | (Ret a, s') => k a s'
       | (Raise e, s') => (Raise e, s')
       | (Rerun, s') => (Rerun, s')
       end.

Definition emit (e : event) : M unit :=
  λ s, (Ret tt, {| session := session s; log := log s ++ [e] |}).

(** [st] with the events [es] added to its log. *)
Definition logged (st : state) (es : list event) : state :=
  {| session := session st; log := log st ++ es |}.

(** A call to a collaborator: logged, then it returns or raises. *)
Definition call {A} (e : event) (r : reply A) : M A :=
  λ s, (of_reply r, {| session := session s; log := log s ++ [e] |}).

(** The same for a step the log does not record. *)
Definition lift {A} (r : reply A) : M A := λ s, (of_reply r, s).

Definition get_session : M (option string) := λ s, (Ret (session s), s).
Definition set_session (v : string) : M unit :=
  λ s, (Ret tt, {| session := Some v; log := log s |}).

(** [st.rerun()] *)
Definition rerun {A} : M A := λ s, (Rerun, s).

(** [try: body  except Exception as e: handler(e)] *)
Definition try_except {A} (body : M A) (handler : exn -> M A) : M A :=
  λ s, match body s with
       | (Raise e, s') => handler e s'
       | r => r
       end.

(** [for x in xs: body(x)] *)
Fixpoint for_each {A} (xs : list A) (body : A -> M unit) : M unit :=
  match xs with
  | [] => ret tt
  | x :: xs' => bind (body x) (λ _, for_each xs' body)
  end.

End Eff.

Notation "'do' x <- m ; k" := (Eff.bind m (λ x, k))
  (at level 10, x name, m at level 100, k at level 200, only parsing).
Notation "'exec' m ; k" := (Eff.bind m (λ _, k))
  (at level 10, m at level 100, k at level 200, only parsing).

(** The collaborators of a run: the clock, [yf.download], [mpf.plot],
    [fig.savefig] into a fresh buffer, and [plt.close]. *)
Record world : Type := mk_world {
  fig : Type;
  today : Z;
  download : string -> Z -> Z -> reply Frame.raw;
  mpf_plot : Frame.clean -> Float64.float -> string -> reply fig;
  savefig : fig -> reply (list Byte.byte);
  plt_close : fig -> reply unit
}.

(** ** The chart function *)

Module Renko.
Import Eff.

Definition calculate_brick_size (current_price : Float64.float) : Float64.float :=
  Float64.mul current_price Float64.hundredth.

(** What [fetch_and_plot_renko] returns: [(buf, None)] or [(None, text)]. *)
Definition result : Type := option (list Byte.byte) * option string.

(** [end_date - timedelta(days=6*30)] *)
Definition window_start (w : world) : Z := (today w - 6 * 30)%Z.

(** The three messages. *)
Definition no_data (ticker : string) : string := "No data for " +:+ ticker.
Definition not_enough (ticker : string) : string :=
  "Not enough valid data for " +:+ ticker.
Definition error_for (ticker : string) (e : exn) : string :=
  "Error for " +:+ ticker +:+ ": " +:+ exn_str e.

(** The calls to the provider and to the renderer, as logged. *)
Definition ev_download (w : world) (ticker : string) : event :=
  Download ticker (window_start w) (today w).
Definition ev_plot (ticker : string) (d : Frame.raw) (x : Float64.float) : event :=
  Plot (Frame.cleaned d) (calculate_brick_size x) (ticker +:+ " Renko Chart").

(** The body of the [try]. *)
Definition fetch_body (w : world) (ticker : string) : M result :=
  let end_date := today w in
  let start_date := window_start w in
  do data <- call (Download ticker start_date end_date)
                  (download w ticker start_date end_date);
  if Frame.raw_empty data then
    ret (None, Some (no_data ticker))
  else
    let data := Frame.cleaned data in
    if Frame.too_short data then
      ret (None, Some (not_enough ticker))
    else
      do current_price <- lift (Frame.last_close data);
      let brick_size := calculate_brick_size current_price in
      let title := ticker +:+ " Renko Chart" in
      do f <- call (Plot data brick_size title) (mpf_plot w data brick_size title);
      do buf <- call Savefig (savefig w f);
      exec call ClosePlot (plt_close w f);
      ret (Some buf, None).

Definition fetch_and_plot_renko (w : world) (ticker : string) : M result :=
  try_except (fetch_body w ticker)
    (λ e, ret (None, Some (error_for ticker e))).

End Renko.

(** ** The page *)

Module App.
Import Eff PyStr.

(** What the widgets return in a run: the six check boxes, the text of
    the search box, and for each suggestion button whether it reports a
    click. *)
Record widgets : Type := mk_widgets {
  all_checked : bool;
  nifty_50_checked : bool;
  nifty_100_checked : bool;
  nifty_200_checked : bool;
  nifty_500_checked : bool;
  nifty_defense_checked : bool;
  search_input : string;
  button : string -> bool
}.

(** The five lists the script imports from [stock_symbols]. That module
    is not among the sources, so the lists are a parameter of the page. *)
Record catalog : Type := mk_catalog {
  nifty_50 : list string;
  nifty_100 : list string;
  nifty_200 : list string;
  nifty_500 : list string;
  nifty_defense_stocks : list string
}.

Definition index_selected (wd : widgets) : bool :=
  nifty_50_checked wd || nifty_100_checked wd || nifty_200_checked wd
  || nifty_500_checked wd || nifty_defense_checked wd || all_checked wd.

(** [if cond: s.update(xs)] *)
Definition update_if (cond : bool) (xs : list string) (s : gset string) : gset string :=
  if cond then s ∪ list_to_set xs else s.

Definition available_stocks (c : catalog) (wd : widgets) : gset string :=
  let s := ∅ in
  let s := update_if (all_checked wd || nifty_50_checked wd) (nifty_50 c) s in
  let s := update_if (all_checked wd || nifty_100_checked wd) (nifty_100 c) s in
  let s := update_if (all_checked wd || nifty_200_checked wd) (nifty_200 c) s in
  let s := update_if (all_checked wd || nifty_500_checked wd) (nifty_500 c) s in
  update_if (all_checked wd || nifty_defense_checked wd) (nifty_defense_stocks c) s.

(** [search_term = search_term.strip().upper()] and the suffix *)
Definition normalize (text : string) : string :=
  let search_term := upper (strip text) in
  if truthy search_term && negb (endswith search_term ".NS")
  then search_term +:+ ".NS"
  else search_term.

(** [[stock for stock in available_stocks
      if search_term.split(".NS")[0].lower() in stock.lower()]] *)
Definition matches (search_term stock : string) : bool :=
  contains (lower (split_head ".NS" search_term)) (lower stock).

Definition suggestions (available : gset string) (search_term : string) : list string :=
  List.filter (matches search_term) (elements available).

(** [sorted(xs)] on strings: by code point, a prefix first. *)
Definition sorted (xs : list string) : list string := merge_sort String.le xs.

(** [", ".join(xs)] *)
Fixpoint join (sep : string) (xs : list string) : string :=
  match xs with
  | [] => ""
  | [x] => x
  | x :: xs' => x +:+ sep +:+ join sep xs'
  end.

(** The ticker the page shows, when it shows one. *)
Definition stock_to_plot (selected_stock search_term : string) : option string :=
  if truthy search_term || truthy selected_stock then
    Some (if truthy selected_stock then selected_stock else search_term)
  else None.

Definition tags (c : catalog) (stock : string) : list string :=
  (if bool_decide (stock ∈ nifty_50 c) then ["Nifty 50"] else []) ++
  (if bool_decide (stock ∈ nifty_100 c) then ["Nifty 100"] else []) ++
  (if bool_decide (stock ∈ nifty_200 c) then ["Nifty 200"] else []) ++
  (if bool_decide (stock ∈ nifty_500 c) then ["Nifty 500"] else []) ++
  (if bool_decide (stock ∈ nifty_defense_stocks c) then ["Nifty Defense"] else []).

Definition validation_message : string :=
  "Please select a valid stock from the selected indices.".

(** [st.session_state.selected_stock], once the key is initialised *)
Definition selected_stock : M string :=
  do v <- get_session; ret (default "" v).

(** The suggestion list under the search box. *)
Definition show_suggestions (c : catalog) (wd : widgets) (search_term : string) : M unit :=
  if index_selected wd && truthy search_term then
    let found := suggestions (available_stocks c wd) search_term in
    match found with
    | [] => ret tt
    | _ =>
        exec emit OpenSuggestions;
        exec for_each (sorted found) (λ suggestion,
               exec emit (Button suggestion);
               if button wd suggestion
               then exec set_session suggestion; rerun
               else ret tt);
        emit CloseSuggestions
    end
  else ret tt.

(** The chart, or the message that there is none. *)
Definition show_chart (c : catalog) (w : world) (wd : widgets) (search_term : string) : M unit :=
  do selected <- selected_stock;
  match stock_to_plot selected search_term with
  | None => ret tt
  | Some stock =>
      if index_selected wd && negb (bool_decide (stock ∈ available_stocks c wd)) then
        emit (ErrorBox validation_message)
      else
        let indices := tags c stock in
        exec (match indices with
              | [] => emit (Write ("Stock " +:+ stock +:+ " is not tagged in any predefined indices."))
              | _ => emit (Write ("Stock " +:+ stock +:+ " is tagged in: " +:+ join ", " indices))
              end);
        exec emit (Subheader ("Renko Chart for " +:+ stock));
        do r <- Renko.fetch_and_plot_renko w stock;
        match r with
        | (Some chart, _) => emit (Image chart)
        | (None, error) => emit (ErrorBox (default "None" error))
        end
  end.

(** [if 'selected_stock' not in st.session_state:
       st.session_state.selected_stock = ""] *)
Definition init_session : M unit :=
  do v <- get_session;
  match v with None => set_session "" | Some _ => ret tt end.

(** One run of the script, top to bottom. *)
Definition app (c : catalog) (w : world) (wd : widgets) : M unit :=
  exec init_session;
  let search_term := normalize (search_input wd) in
  exec show_suggestions c wd search_term;
  show_chart c w wd search_term.

End App.

(** ** Sample data *)

Module Sample.
Import Float64 Frame.

(** [float(n)] for an integer that fits *)
Definition of_Z (n : Z) : float := binary_normalize prec emax n 0 false.

(** The labels [yf.download] gives the frame of one ticker. *)
Definition price_labels (ticker : string) : labels :=
  Multi [("Close", ticker); ("High", ticker); ("Low", ticker);
         ("Open", ticker); ("Volume", ticker)].

(** A day on which the price did not move. *)
Definition bar (close : float) : list value :=
  [Num close; Num close; Num close; Num close; Num (of_Z 1000)].

(** A day with a hole in the data. *)
Definition broken_bar (close : float) : list value :=
  [Num close; Bad; Num close; Num close; Num (of_Z 1000)].

Definition bars (ticker : string) (n : nat) (close : float) : raw :=
  mk_raw (price_labels ticker) (replicate n (bar close)).

(** A provider that answers with [d] and a renderer that draws whatever
    it is given. *)
Definition steady_world (d : raw) : world :=
  mk_world unit 20000 (λ _ _ _, Ok d) (λ _ _ _, Ok tt) (λ _, Ok []) (λ _, Ok tt).

(** A provider that is down. *)
Definition outage (e : exn) : world :=
  mk_world unit 20000 (λ _ _ _, Fails e) (λ _ _ _, Ok tt) (λ _, Ok []) (λ _, Ok tt).

(** The start of a session. *)
Definition fresh : Eff.state := Eff.mk_state None [].

(** [-1.0] *)
Definition minus_one : float := S754_finite true 4503599627370496 (-52).

(** Three complete days among eight with a hole. *)
Definition three_good_days : raw :=
  mk_raw (price_labels "X.NS")
    (replicate 3 (bar (of_Z 100)) ++ replicate 8 (broken_bar (of_Z 100))).

Definition bel_filter_set : gset string := {[ "BEL.NS"; "BELX.NS" ]}.

Definition small_catalog : App.catalog :=
  App.mk_catalog ["RELIANCE.NS"; "TCS.NS"] ["RELIANCE.NS"; "TCS.NS"]
                 ["RELIANCE.NS"; "TCS.NS"] ["RELIANCE.NS"; "TCS.NS"; "BEL.NS"]
                 ["BEL.NS"; "HAL.NS"].

(** Only the Nifty Defense box ticked, [text] typed, nothing clicked. *)
Definition defense_only (text : string) : App.widgets :=
  App.mk_widgets false false false false false true text (λ _, false).

End Sample.

(** ** Notions the statements use *)

Module Notions.
Import Eff Renko App PyStr Float64.

(** The members of an index when its box is ticked. *)
Definition members_if (ticked : bool) (xs : list string) : gset string :=
  if ticked then list_to_set xs else ∅.

(** The suggestion list as the specification words it: the stocks whose
    symbol contains the whole normalised term, compared in lower case. *)
Definition suggestions_by_whole_term
    (available : gset string) (search_term : string) : list string :=
  List.filter (λ stock, contains (lower search_term) (lower stock))
              (elements available).

(** The faults a call of [fetch_and_plot_renko] can meet, step by step:
    the provider, the look-up of the last close (a missing Close
    column), and the three rendering calls. *)
Inductive fault (w : world) (ticker : string) : exn -> Prop :=
  | provider_fault e :
      download w ticker (window_start w) (today w) = Fails e →
      fault w ticker e
  | close_fault d e :
      download w ticker (window_start w) (today w) = Ok d →
      Frame.raw_empty d = false →
      Frame.too_short (Frame.cleaned d) = false →
      Frame.last_close (Frame.cleaned d) = Fails e →
      fault w ticker e
  | render_fault d x e :
      download w ticker (window_start w) (today w) = Ok d →
      Frame.raw_empty d = false →
      Frame.too_short (Frame.cleaned d) = false →
      Frame.last_close (Frame.cleaned d) = Ok x →
      (mpf_plot w (Frame.cleaned d) (calculate_brick_size x)
                (ticker +:+ " Renko Chart") = Fails e
       ∨ ∃ f, mpf_plot w (Frame.cleaned d) (calculate_brick_size x)
                       (ticker +:+ " Renko Chart") = Ok f
              ∧ (savefig w f = Fails e
                 ∨ (∃ buf, savefig w f = Ok buf) ∧ plt_close w f = Fails e)) →
      fault w ticker e.

(** The events of the suggestion list. *)
Definition suggestion_event (e : event) : Prop :=
  match e with
  | OpenSuggestions | Button _ | CloseSuggestions => True
  | _ => False
  end.

(** The events of a page that stops at the validation error. *)
Definition refusal_event (e : event) : Prop :=
  suggestion_event e ∨ e = ErrorBox validation_message.

(** The state once [selected_stock] is initialised. *)
Definition after_init (st : state) : state :=
  match session st with
  | None => {| session := Some ""; log := log st |}
  | Some _ => st
  end.

(** The brick size of the subnormal close [n * 2^-1074] is positive,
    or is [0.0]. *)
Definition positive_at (n : nat) : bool :=
  ltb zero (calculate_brick_size (S754_finite false (Pos.of_nat n) (-1074))).

Definition zero_at (n : nat) : bool :=
  match calculate_brick_size (S754_finite false (Pos.of_nat n) (-1074)) with
  | S754_zero false => true
  | _ => false
  end.

(** Calls to the provider. *)
Definition is_download (e : event) : bool :=
  match e with Download _ _ _ => true | _ => false end.

(** The sign of a float, when it has one. *)
Definition sign_bit (x : float) : option bool :=
  match x with
  | S754_zero s | S754_infinity s | S754_finite s _ _ => Some s
  | S754_nan => None
  end.

(** The line that tells in which indices a stock is. *)
Definition status_line (c : catalog) (stock : string) : string :=
  match tags c stock with
  | [] => "Stock " +:+ stock +:+ " is not tagged in any predefined indices."
  | _ => "Stock " +:+ stock +:+ " is tagged in: " +:+ join ", " (tags c stock)
  end.

(** What the page shows for the answer of the chart function. *)
Definition shown_for (r : Renko.result) : event :=
  match r with
  | (Some chart, _) => Image chart
  | (None, error) => ErrorBox (default "None" error)
  end.

(** A renderer whose figures cannot be saved. *)
Definition unsaved_world (d : Frame.raw) (e : exn) : world :=
  mk_world unit 20000 (λ _ _ _, Ok d) (λ _ _ _, Ok tt) (λ _, Fails e) (λ _, Ok tt).

(** Twelve days of a frame with the columns [names]. *)
Definition twelve_days (names : list string) : Frame.raw :=
  Frame.mk_raw (Frame.Flat names)
    (replicate 12 (replicate (length names) (Frame.Num (Sample.of_Z 100)))).

(** Calls to the plotting library. *)
Definition is_renderer_call (e : event) : bool :=
  match e with Plot _ _ _ | Savefig | ClosePlot => true | _ => false end.

(** No box ticked, [text] typed, nothing clicked. *)
Definition unfiltered (text : string) : widgets :=
  mk_widgets false false false false false false text (λ _, false).

(** Only the Nifty Defense box ticked, [text] typed, and the button of
    the suggestion [clicked] reporting a click. *)
Definition clicking (text clicked : string) : widgets :=
  mk_widgets false false false false false true text (String.eqb clicked).

End Notions.

Import Notions.

(** * Properties *)

(** ** Strings *)

Section StringFacts.
Import PyStr.

Lemma append_cons (c : ascii) (a b : string) :
  String c a +:+ b = String c (a +:+ b).
Proof. done. Qed.

Lemma append_empty_r (s : string) : s +:+ "" = s.
Proof. induction s as [|c s IH]; [done|]. by rewrite append_cons, IH. Qed.

Lemma append_assoc (a b c : string) : (a +:+ b) +:+ c = a +:+ b +:+ c.
Proof. induction a as [|x a IH]; [done|]. by rewrite !append_cons, IH. Qed.

Lemma truthy_true (s : string) : truthy s = true ↔ s ≠ "".
Proof. destruct s; naive_solver. Qed.






Lemma prefix_spec (p s : string) :
  String.prefix p s = true ↔ ∃ r, s = p +:+ r.
Proof.
  revert s. induction p as [|c p IH]; intros s.
  - split; [by exists s|by destruct s].
  - destruct s as [|c' s]; [split; [done|by intros (? & ?)]|].
    cbn [String.prefix]. destruct (ascii_dec c c') as [->|Hne].
    + rewrite IH. split; intros (r & Hr); exists r; [by rewrite Hr|].
      rewrite append_cons in Hr. congruence.
    + split; [done|]. intros (r & Hr). rewrite append_cons in Hr. congruence.
Qed.

Lemma contains_spec (needle hay : string) :
  contains needle hay = true ↔ ∃ a b, hay = a +:+ needle +:+ b.
Proof.
  induction hay as [|c hay IH]; cbn [contains].
  - rewrite orb_false_r, prefix_spec. split.
    + intros (r & Hr). by exists "", r.
    + intros ([|??] & b & H); [by exists b|discriminate].
  - rewrite orb_true_iff, prefix_spec, IH. split.
    + intros [(r & Hr)|(a & b & ->)]; [by exists "", r|by exists (String c a), b].
    + intros ([|c' a] & b & H); [left; by exists b|].
      right. exists a, b. rewrite append_cons in H. congruence.
Qed.

Lemma split_head_spec (sep s : string) :
  (∃ rest, s = split_head sep s +:+ sep +:+ rest) ∨ split_head sep s = s.
Proof.
  induction s as [|c s IH]; cbn [split_head].
  - destruct (String.prefix sep "") eqn:Hp; [|by right].
    apply prefix_spec in Hp as (r & Hr). left. by exists r.
  - destruct (String.prefix sep (String c s)) eqn:Hp.
    + apply prefix_spec in Hp as (r & Hr). left. by exists r.
    + destruct IH as [(rest & Hr)|Hr]; [left; exists rest|right].
      * rewrite append_cons. by rewrite <- Hr.
      * by rewrite Hr.
Qed.

End StringFacts.

(** ** The search term *)

Section SearchTerm.
Import PyStr App.




End SearchTerm.

(** ** The filter set *)

Section FilterSet.
Import App.

(** C5. The filter set is the union of the members of the ticked
    indices, and of all five indices when [All] is ticked, whatever the
    other boxes say. *)
Theorem available_stocks_is_union
    (c : catalog) (b50 b100 b200 b500 bdef : bool)
    (text : string) (btn : string -> bool) :
  available_stocks c (mk_widgets false b50 b100 b200 b500 bdef text btn)
    = members_if b50 (nifty_50 c) ∪ members_if b100 (nifty_100 c)
      ∪ members_if b200 (nifty_200 c) ∪ members_if b500 (nifty_500 c)
      ∪ members_if bdef (nifty_defense_stocks c)
  ∧ available_stocks c (mk_widgets true b50 b100 b200 b500 bdef text btn)
    = list_to_set (nifty_50 c) ∪ list_to_set (nifty_100 c)
      ∪ list_to_set (nifty_200 c) ∪ list_to_set (nifty_500 c)
      ∪ list_to_set (nifty_defense_stocks c).
Proof.
  unfold available_stocks, update_if, members_if. cbn.
  split; [destruct b50, b100, b200, b500, bdef|]; cbn;
    by rewrite ?(left_id_L ∅ (∪)), ?(right_id_L ∅ (∪)).
Qed.

End FilterSet.

(** ** Suggestions *)

Section Suggestions.
Import PyStr App Sample.

Lemma matches_spec (search_term stock : string) :
  matches search_term stock = true
  ↔ ∃ a b, lower stock = a +:+ lower (split_head ".NS" search_term) +:+ b.
Proof. apply contains_spec. Qed.

Lemma elem_of_suggestions (available : gset string) (search_term stock : string) :
  stock ∈ suggestions available search_term
  ↔ stock ∈ available ∧ matches search_term stock = true.
Proof.
  unfold suggestions.
  by rewrite list_elem_of_In, filter_In, <- list_elem_of_In, elem_of_elements.
Qed.

Lemma NoDup_suggestions (available : gset string) (search_term : string) :
  NoDup (suggestions available search_term).
Proof.
  unfold suggestions.
  apply NoDup_ListNoDup, List.NoDup_filter, NoDup_ListNoDup, NoDup_elements.
Qed.

Lemma elem_of_sorted (xs : list string) (x : string) : x ∈ sorted xs ↔ x ∈ xs.
Proof. unfold sorted. by rewrite merge_sort_Permutation. Qed.

(** C6, as the specification states it, fails: for the text [BEL] the
    normalised term is [BEL.NS], which [BELX.NS] does not contain, yet
    [BELX.NS] is suggested. *)
Lemma suggestions_not_by_whole_term :
  normalize "BEL" = "BEL.NS"
  ∧ sorted (suggestions bel_filter_set (normalize "BEL")) = ["BEL.NS"; "BELX.NS"]
  ∧ sorted (suggestions_by_whole_term bel_filter_set (normalize "BEL")) = ["BEL.NS"]
  ∧ sorted (suggestions bel_filter_set (normalize "BEL"))
    ≠ sorted (suggestions_by_whole_term bel_filter_set (normalize "BEL")).
Proof. vm_compute. repeat split; discriminate. Qed.

(** C6, amended. The suggestions shown are the members of the filter set
    whose symbol, in lower case, contains the lower-cased part of the
    normalised term that precedes its first [.NS]; they are shown in
    lexicographic order, each once. For [BEL] over a filter set of
    [BEL.NS] and [BELX.NS] both are shown, in that order; for [ZZZNOPE]
    none is. *)
Theorem suggestions_sorted_stem_matches
    (available : gset string) (search_term : string) :
  let stem := split_head ".NS" search_term in
  let shown := sorted (suggestions available search_term) in
  (∀ stock, stock ∈ shown
            ↔ stock ∈ available ∧ ∃ a b, lower stock = a +:+ lower stem +:+ b)
  ∧ StronglySorted String.le shown
  ∧ NoDup shown
  ∧ sorted (suggestions bel_filter_set (normalize "BEL")) = ["BEL.NS"; "BELX.NS"]
  ∧ sorted (suggestions bel_filter_set (normalize "ZZZNOPE")) = [].
Proof.
  intros stem shown. split; [|split; [|split; [|split]]].
  - intros stock. unfold shown.
    by rewrite elem_of_sorted, elem_of_suggestions, matches_spec.
  - apply StronglySorted_merge_sort; apply _.
  - unfold shown, sorted. rewrite merge_sort_Permutation.
    apply NoDup_suggestions.
  - by vm_compute.
  - by vm_compute.
Qed.

End Suggestions.

(** ** The chart function: one lemma per way through it *)

Section FetchPaths.
Import Eff Renko.

Variable w : world.
Variable ticker : string.

Ltac step_fetch :=
  unfold fetch_and_plot_renko, try_except, fetch_body, bind, call, lift, ret,
    logged, ev_download, ev_plot, of_reply in *;
  cbn [session log fst snd] in *.

Lemma fetch_download_fails (st : state) (e : exn) :
  download w ticker (window_start w) (today w) = Fails e →
  fetch_and_plot_renko w ticker st
  = (Ret (None, Some (error_for ticker e)), logged st [ev_download w ticker]).
Proof. intros H. step_fetch. by rewrite H. Qed.

Lemma fetch_no_data (st : state) (d : Frame.raw) :
  download w ticker (window_start w) (today w) = Ok d →
  Frame.raw_empty d = true →
  fetch_and_plot_renko w ticker st
  = (Ret (None, Some (no_data ticker)), logged st [ev_download w ticker]).
Proof. intros H He. step_fetch. by rewrite H, He. Qed.

Lemma fetch_not_enough (st : state) (d : Frame.raw) :
  download w ticker (window_start w) (today w) = Ok d →
  Frame.raw_empty d = false →
  Frame.too_short (Frame.cleaned d) = true →
  fetch_and_plot_renko w ticker st
  = (Ret (None, Some (not_enough ticker)), logged st [ev_download w ticker]).
Proof. intros H He Hs. step_fetch. by rewrite H, He, Hs. Qed.

Lemma fetch_close_fails (st : state) (d : Frame.raw) (e : exn) :
  download w ticker (window_start w) (today w) = Ok d →
  Frame.raw_empty d = false →
  Frame.too_short (Frame.cleaned d) = false →
  Frame.last_close (Frame.cleaned d) = Fails e →
  fetch_and_plot_renko w ticker st
  = (Ret (None, Some (error_for ticker e)), logged st [ev_download w ticker]).
Proof. intros H He Hs Hc. step_fetch. by rewrite H, He, Hs, Hc. Qed.

(** With a last close the renderer is called; what comes back is the
    chart, or the message of whichever rendering step failed. *)
Lemma fetch_renders (st : state) (d : Frame.raw) (x : Float64.float) :
  download w ticker (window_start w) (today w) = Ok d →
  Frame.raw_empty d = false →
  Frame.too_short (Frame.cleaned d) = false →
  Frame.last_close (Frame.cleaned d) = Ok x →
  fetch_and_plot_renko w ticker st
  = match mpf_plot w (Frame.cleaned d) (calculate_brick_size x)
                   (ticker +:+ " Renko Chart") with
    | Fails e => (Ret (None, Some (error_for ticker e)),
                  logged st [ev_download w ticker; ev_plot ticker d x])
    | Ok f =>
        match savefig w f with
        | Fails e => (Ret (None, Some (error_for ticker e)),
                      logged st [ev_download w ticker; ev_plot ticker d x; Savefig])
        | Ok buf =>
            match plt_close w f with
            | Fails e => (Ret (None, Some (error_for ticker e)),
                          logged st [ev_download w ticker; ev_plot ticker d x; Savefig; ClosePlot])
            | Ok _ => (Ret (Some buf, None),
                       logged st [ev_download w ticker; ev_plot ticker d x; Savefig; ClosePlot])
            end
        end
    end.
Proof.
  intros H He Hs Hc. step_fetch. rewrite H, He, Hs, Hc.
  destruct (mpf_plot _ _ _ _) as [f|e]; cbn; rewrite <- ?app_assoc; [|done].
  destruct (savefig w f) as [buf|e]; cbn; rewrite <- ?app_assoc; [|done].
  destruct (plt_close w f) as [[]|e]; cbn; by rewrite <- ?app_assoc.
Qed.

End FetchPaths.

(** ** Errors of the chart function *)

Section FetchErrors.
Import Eff Renko Sample.

Lemma missing_close_column (d : Frame.clean) :
  "Close" ∉ Frame.columns d →
  Frame.last_close d = Fails (mk_exn "KeyError" "'Close'").
Proof. intros H. unfold Frame.last_close. by rewrite bool_decide_eq_false_2. Qed.

(** Every exception of the body is one of these faults. *)
Lemma fault_complete (w : world) (ticker : string) (st st' : state) (e : exn) :
  fetch_body w ticker st = (Raise e, st') → fault w ticker e.
Proof.
  unfold fetch_body, bind, call, lift, ret, of_reply. cbn [session log].
  destruct (download w ticker _ _) as [d|e0] eqn:Hd;
    [|intros [= <- _]; by apply provider_fault].
  destruct (Frame.raw_empty d) eqn:He; [done|].
  destruct (Frame.too_short (Frame.cleaned d)) eqn:Hs; [done|].
  destruct (Frame.last_close (Frame.cleaned d)) as [x|e0] eqn:Hc;
    [|intros [= <- _]; by eapply close_fault].
  destruct (mpf_plot _ _ _ _) as [f|e0] eqn:Hp;
    [|intros [= <- _]; eapply render_fault; eauto].
  destruct (savefig w f) as [buf|e0] eqn:Hsv;
    [|intros [= <- _]; eapply render_fault; eauto].
  destruct (plt_close w f) as [[]|e0] eqn:Hcl; [done|].
  intros [= <- _]. eapply render_fault; eauto 10.
Qed.



(** C10. The chart function always returns, and what it returns is
    either a chart and no message, or no chart and a message that is
    not empty. *)
Theorem fetch_returns_chart_or_message
    (w : world) (ticker : string) (st : state) :
  ∃ r st', fetch_and_plot_renko w ticker st = (Ret r, st')
           ∧ ((∃ buf, r = (Some buf, None))
              ∨ (∃ msg, r = (None, Some msg) ∧ msg ≠ "")).
Proof.
  destruct (download w ticker (window_start w) (today w)) as [d|e] eqn:Hd.
  2: { rewrite (fetch_download_fails _ _ _ _ Hd). eauto 10. }
  destruct (Frame.raw_empty d) eqn:He.
  { rewrite (fetch_no_data _ _ _ _ Hd He). eauto 10. }
  destruct (Frame.too_short (Frame.cleaned d)) eqn:Hs.
  { rewrite (fetch_not_enough _ _ _ _ Hd He Hs). eauto 10. }
  destruct (Frame.last_close (Frame.cleaned d)) as [x|e] eqn:Hc.
  2: { rewrite (fetch_close_fails _ _ _ _ _ Hd He Hs Hc). eauto 10. }
  rewrite (fetch_renders _ _ _ _ _ Hd He Hs Hc).
  destruct (mpf_plot _ _ _ _) as [f|e]; [|eauto 10].
  destruct (savefig w f) as [buf|e]; [|eauto 10].
  destruct (plt_close w f) as [[]|e]; eauto 10.
Qed.

End FetchErrors.

(** ** Rounding in binary64 *)

Section Rounding.
Import Float64.
Local Open Scope Z_scope.

Lemma digits2_pos_size (p : positive) : digits2_pos p = Pos.size p.
Proof. induction p as [p IH|p IH|]; cbn; by rewrite ?IH. Qed.

(** A number of [d] binary digits lies in [[2^(d-1), 2^d)]. *)
Lemma digits2_pos_bounds (p : positive) :
  2 ^ (Z.pos (digits2_pos p) - 1) <= Z.pos p < 2 ^ Z.pos (digits2_pos p).
Proof.
  rewrite digits2_pos_size. split.
  - pose proof (Pos.size_le p) as H.
    assert (Z.pos (2 ^ Pos.size p) <= Z.pos p~0) as H' by lia.
    rewrite Pos2Z.inj_pow in H'.
    replace (Z.pos (Pos.size p)) with (1 + (Z.pos (Pos.size p) - 1)) in H' by lia.
    rewrite Z.pow_add_r in H' by lia. lia.
  - pose proof (Pos.size_gt p) as H.
    assert (Z.pos p < Z.pos (2 ^ Pos.size p)) as H' by lia.
    by rewrite Pos2Z.inj_pow in H'.
Qed.

Lemma shr_1_m (mrs : shr_record) :
  0 <= shr_m mrs → shr_m (shr_1 mrs) = shr_m mrs / 2.
Proof.
  destruct mrs as [[|[p|p|]|p] r s]; cbn [shr_1 shr_m]; intros H;
    [done| | |done|lia].
  - replace (Z.pos p~1) with (2 * Z.pos p + 1) by lia.
    Z.div_mod_to_equations. lia.
  - replace (Z.pos p~0) with (2 * Z.pos p) by lia.
    Z.div_mod_to_equations. lia.
Qed.

Lemma pow2_xO (p : positive) : 2 ^ Z.pos p~0 = 2 ^ Z.pos p * 2 ^ Z.pos p.
Proof.
  replace (Z.pos p~0) with (Z.pos p + Z.pos p) by lia.
  apply Z.pow_add_r; lia.
Qed.

Lemma pow2_xI (p : positive) : 2 ^ Z.pos p~1 = 2 * (2 ^ Z.pos p * 2 ^ Z.pos p).
Proof.
  replace (Z.pos p~1) with (1 + Z.pos p~0) by lia.
  rewrite Z.pow_add_r, Z.pow_1_r, pow2_xO; lia.
Qed.

Lemma pow2_pos (n : Z) : 0 <= n → 0 < 2 ^ n.
Proof. intros. apply Z.pow_pos_nonneg; lia. Qed.

Lemma iter_pos_shr_1_m (p : positive) (mrs : shr_record) :
  0 <= shr_m mrs →
  shr_m (SpecFloat.iter_pos shr_1 p mrs) = shr_m mrs / 2 ^ Z.pos p.
Proof.
  revert mrs. induction p as [p IH|p IH|]; intros mrs H;
    cbn [SpecFloat.iter_pos].
  - pose proof (pow2_pos (Z.pos p) ltac:(lia)) as Hp.
    assert (0 <= shr_m (shr_1 mrs)) as H1
      by (rewrite shr_1_m by done; apply Z.div_pos; lia).
    assert (0 <= shr_m (SpecFloat.iter_pos shr_1 p (shr_1 mrs))) as H2
      by (rewrite IH by done; apply Z.div_pos; lia).
    rewrite (IH _ H2), (IH _ H1), (shr_1_m _ H), pow2_xI.
    rewrite !Z.div_div by lia. done.
  - pose proof (pow2_pos (Z.pos p) ltac:(lia)) as Hp.
    assert (0 <= shr_m (SpecFloat.iter_pos shr_1 p mrs)) as H2
      by (rewrite IH by done; apply Z.div_pos; lia).
    rewrite (IH _ H2), (IH _ H), pow2_xO.
    by rewrite Z.div_div by lia.
  - by rewrite shr_1_m, Z.pow_1_r.
Qed.

(** Shifting right by [n] divides the mantissa by [2^n] and adds [n] to
    the exponent; nothing happens for [n <= 0]. *)
Lemma shr_m_e (mrs : shr_record) (e n : Z) :
  0 <= shr_m mrs →
  shr_m (fst (shr mrs e n)) = shr_m mrs / 2 ^ Z.max 0 n
  ∧ snd (shr mrs e n) = e + Z.max 0 n.
Proof.
  intros H. destruct n as [|p|p]; cbn [shr fst snd].
  - rewrite Z.max_id. cbn. rewrite Z.div_1_r. lia.
  - rewrite Z.max_r by lia. by rewrite iter_pos_shr_1_m.
  - rewrite Z.max_l by lia. cbn. rewrite Z.div_1_r. lia.
Qed.

Lemma shr_record_of_loc_m (m : Z) (l : location) :
  shr_m (shr_record_of_loc m l) = m.
Proof. by destruct l as [|[]]. Qed.

Lemma shr_fexp_nonneg (m e : Z) (l : location) :
  0 <= m → 0 <= shr_m (fst (shr_fexp prec emax m e l)).
Proof.
  intros H. unfold shr_fexp.
  assert (0 <= shr_m (shr_record_of_loc m l)) as H'
    by by rewrite shr_record_of_loc_m.
  destruct (shr_m_e _ e (fexp prec emax (Zdigits2 m + e) - e) H') as [-> _].
  rewrite shr_record_of_loc_m.
  apply Z.div_pos; [done|]. apply pow2_pos; lia.
Qed.

(** A mantissa whose value is at least [2^-1074] loses digits without
    vanishing, and the exponent does not leave the range. *)
Lemma shr_fexp_positive (m : positive) (e : Z) (l : location) :
  -1073 <= Z.pos (digits2_pos m) + e →
  1 <= shr_m (fst (shr_fexp prec emax (Z.pos m) e l))
  ∧ -1074 <= snd (shr_fexp prec emax (Z.pos m) e l).
Proof.
  intros Hd. unfold shr_fexp. cbn [Zdigits2].
  set (n := fexp prec emax (Z.pos (digits2_pos m) + e) - e).
  assert (0 <= shr_m (shr_record_of_loc (Z.pos m) l)) as H'
    by by rewrite shr_record_of_loc_m.
  destruct (shr_m_e _ e n H') as [-> ->]. rewrite shr_record_of_loc_m.
  pose proof (digits2_pos_bounds m) as [Hlo _].
  assert (Z.max 0 n <= Z.pos (digits2_pos m) - 1) as Hn
    by (unfold n, fexp, emin, prec, emax; lia).
  split.
  - apply Z.div_le_lower_bound; [apply pow2_pos; lia|].
    rewrite Z.mul_1_r. etrans; [|exact Hlo].
    apply Z.pow_le_mono_r; lia.
  - unfold n, fexp, emin, prec, emax. lia.
Qed.

Lemma round_nearest_even_ge (m : Z) (l : location) :
  m <= round_nearest_even m l.
Proof. destruct l as [|[]]; cbn; [lia| |lia|lia]. destruct (Z.even m); lia. Qed.

(** Rounding a product never yields NaN and keeps the sign. *)
Lemma binary_round_aux_sign (s : bool) (m : positive) (e : Z) :
  match binary_round_aux prec emax s (Z.pos m) e loc_Exact with
  | S754_nan => False
  | S754_zero s' | S754_infinity s' | S754_finite s' _ _ => s' = s
  end.
Proof.
  unfold binary_round_aux.
  pose proof (shr_fexp_nonneg (Z.pos m) e loc_Exact ltac:(lia)) as H1.
  destruct (shr_fexp prec emax (Z.pos m) e loc_Exact) as [mrs1 e1].
  cbn [fst] in H1.
  pose proof (round_nearest_even_ge (shr_m mrs1) (loc_of_shr_record mrs1)) as Hr.
  pose proof (shr_fexp_nonneg
                (round_nearest_even (shr_m mrs1) (loc_of_shr_record mrs1))
                e1 loc_Exact ltac:(lia)) as H2.
  destruct (shr_fexp prec emax _ e1 loc_Exact) as [mrs2 e2]. cbn [fst] in H2.
  destruct (shr_m mrs2) as [|q|q]; [done| |lia].
  by destruct (e2 <=? emax - prec).
Qed.

(** A positive product of value at least [2^-1074] stays positive. *)
Lemma binary_round_aux_positive (m : positive) (e : Z) :
  -1073 <= Z.pos (digits2_pos m) + e →
  match binary_round_aux prec emax false (Z.pos m) e loc_Exact with
  | S754_finite false _ _ | S754_infinity false => True
  | _ => False
  end.
Proof.
  intros Hd. unfold binary_round_aux.
  destruct (shr_fexp_positive m e loc_Exact Hd) as [H1 He1].
  destruct (shr_fexp prec emax (Z.pos m) e loc_Exact) as [mrs1 e1].
  cbn [fst snd] in H1, He1.
  pose proof (round_nearest_even_ge (shr_m mrs1) (loc_of_shr_record mrs1)) as Hr.
  destruct (round_nearest_even (shr_m mrs1) (loc_of_shr_record mrs1))
    as [|q|q]; [lia| |lia].
  destruct (shr_fexp_positive q e1 loc_Exact) as [H2 _]; [lia|].
  destruct (shr_fexp prec emax (Z.pos q) e1 loc_Exact) as [mrs2 e2].
  cbn [fst] in H2.
  destruct (shr_m mrs2) as [|q2|q2]; [lia| |lia].
  by destruct (e2 <=? emax - prec).
Qed.

End Rounding.

(** ** The brick size *)

Section BrickSize.
Import Float64 Renko.
Local Open Scope Z_scope.

Lemma digits_mul_hundredth (m : positive) :
  Z.pos (digits2_pos m) + 52
  <= Z.pos (digits2_pos (m * 5764607523034235)).
Proof.
  pose proof (digits2_pos_bounds m) as [Hm _].
  pose proof (digits2_pos_bounds (m * 5764607523034235)) as [_ Hp].
  assert (2 ^ (Z.pos (digits2_pos m) - 1 + 52)
          < 2 ^ Z.pos (digits2_pos (m * 5764607523034235))) as H.
  { rewrite Z.pow_add_r by lia. eapply Z.le_lt_trans; [|exact Hp].
    rewrite Pos2Z.inj_mul. apply Z.mul_le_mono_nonneg; [|done| |].
    - apply Z.lt_le_incl, pow2_pos. lia.
    - by vm_compute.
    - by vm_compute. }
  apply Z.pow_lt_mono_r_iff in H; lia.
Qed.

Lemma brick_of_50_to_127 : forallb positive_at (seq 50 78) = true.
Proof. by vm_compute. Qed.

Lemma brick_of_1_to_49 : forallb zero_at (seq 1 49) = true.
Proof. by vm_compute. Qed.

(** A valid float with fewer than 53 digits is subnormal. *)
Lemma valid_exponent (s : bool) (m : positive) (e : Z) :
  valid (S754_finite s m e) = true →
  -1074 <= e ∧ (Z.pos (digits2_pos m) < 53 → e = -1074).
Proof.
  unfold valid, valid_binary, bounded, canonical_mantissa.
  intros [Hc _]%andb_true_iff. apply Z.eqb_eq in Hc.
  unfold fexp, emin, prec, emax in Hc. lia.
Qed.

Lemma ltb_zero_iff (x : float) :
  ltb zero x = true
  ↔ match x with
    | S754_finite false _ _ | S754_infinity false => True
    | _ => False
    end.
Proof. by destruct x as [[]|[]| |[] ??]. Qed.

Lemma leb_threshold_iff (x : float) :
  leb brick_threshold x = true
  ↔ match x with
    | S754_infinity false => True
    | S754_finite false m e => -1074 < e ∨ (e = -1074 ∧ (50 <= m)%positive)
    | _ => False
    end.
Proof.
  destruct x as [[]|[]| |[] m e]; try done.
  unfold leb, brick_threshold, SFleb. cbn [SFcompare].
  destruct (Z.compare_spec (-1074) e) as [He|He|He].
  - change (Pos.compare_cont Eq 50 m) with (50 ?= m)%positive.
    destruct (Pos.compare_spec 50 m); split; try done; lia.
  - split; [lia|done].
  - split; [done|lia].
Qed.

Lemma brick_positive (x : float) :
  valid x = true →
  leb brick_threshold x = true →
  ltb zero (calculate_brick_size x) = true.
Proof.
  intros Hv Hx. apply leb_threshold_iff in Hx.
  destruct x as [[]|[]| |[] m e]; try done.
  destruct (valid_exponent _ _ _ Hv) as [He Hsub].
  destruct (decide (8 <= Z.pos (digits2_pos m))) as [Hd|Hd].
  - apply ltb_zero_iff. unfold calculate_brick_size, mul, hundredth.
    cbn [SFmul xorb]. apply binary_round_aux_positive.
    pose proof (digits_mul_hundredth m). lia.
  - assert (e = -1074) as -> by lia.
    assert (50 <= m)%positive as Hm by lia.
    pose proof (digits2_pos_bounds m) as [_ Hlt].
    assert (Z.pos m < 2 ^ 7) as Hm'.
    { eapply Z.lt_le_trans; [exact Hlt|]. apply Z.pow_le_mono_r; lia. }
    change (2 ^ 7) with 128 in Hm'.
    pose proof brick_of_50_to_127 as Hall.
    rewrite forallb_forall in Hall.
    specialize (Hall (Pos.to_nat m)). unfold positive_at in Hall.
    rewrite Pos2Nat.id in Hall. apply Hall, in_seq. lia.
Qed.

End BrickSize.

Section BrickSizeSigns.
Import Float64 Renko.
Local Open Scope Z_scope.

Lemma brick_underflow (x : float) :
  valid x = true →
  ltb zero x = true →
  leb brick_threshold x = false →
  calculate_brick_size x = zero.
Proof.
  intros Hv Hpos Hx. apply ltb_zero_iff in Hpos.
  apply not_true_iff_false in Hx. rewrite leb_threshold_iff in Hx.
  destruct x as [[]|[]| |[] m e]; try done.
  destruct (valid_exponent _ _ _ Hv) as [He _].
  assert (e = -1074 ∧ (m < 50)%positive) as [-> Hm] by lia.
  pose proof brick_of_1_to_49 as Hall. rewrite forallb_forall in Hall.
  specialize (Hall (Pos.to_nat m)). unfold zero_at in Hall.
  rewrite Pos2Nat.id in Hall.
  destruct (calculate_brick_size (S754_finite false m (-1074)))
    as [[]|[]| |[] ??]; try done; exfalso;
    (assert (false = true) as Habs by (apply Hall, in_seq; lia));
    discriminate.
Qed.

Lemma brick_of_nonpositive (x : float) :
  leb x zero = true → leb (calculate_brick_size x) zero = true.
Proof.
  destruct x as [[]|[]| |[] m e]; try done. intros _.
  unfold calculate_brick_size, mul, hundredth. cbn [SFmul xorb].
  pose proof (binary_round_aux_sign true (m * 5764607523034235) (e + -59)) as H.
  destruct (binary_round_aux _ _ _ _ _ _) as [s|s| |s ??]; by subst.
Qed.

End BrickSizeSigns.

(** ** The brick size in the chart function *)

Section BrickSizeInFetch.
Import Eff Renko Float64 Sample.

(** Once a last close is read, the renderer is called with the brick
    size computed from it, and the answer is the renderer's. *)
Lemma fetch_reaches_plot
    (w : world) (ticker : string) (st : state)
    (d : Frame.raw) (x : float) :
  download w ticker (window_start w) (today w) = Ok d →
  Frame.raw_empty d = false →
  Frame.too_short (Frame.cleaned d) = false →
  Frame.last_close (Frame.cleaned d) = Ok x →
  ∃ r rest,
    fetch_and_plot_renko w ticker st
    = (Ret r, logged st ([ev_download w ticker; ev_plot ticker d x] ++ rest))
    ∧ (∀ f buf,
         mpf_plot w (Frame.cleaned d) (calculate_brick_size x)
                  (ticker +:+ " Renko Chart") = Ok f →
         savefig w f = Ok buf → plt_close w f = Ok tt →
         r = (Some buf, None))
    ∧ (∀ e,
         mpf_plot w (Frame.cleaned d) (calculate_brick_size x)
                  (ticker +:+ " Renko Chart") = Fails e →
         r = (None, Some (error_for ticker e))).
Proof.
  intros Hd He Hs Hc. rewrite (fetch_renders _ _ _ _ _ Hd He Hs Hc).
  destruct (mpf_plot _ _ _ _) as [f|e] eqn:Hp.
  2: { eexists _, []. split; [done|]. split; [done|]. by intros ? [= ->]. }
  destruct (savefig w f) as [buf|e] eqn:Hsv.
  2: { eexists _, [Savefig]. split; [done|]. split; [|done].
       intros ?? [= <-] Hsv'. congruence. }
  destruct (plt_close w f) as [[]|e] eqn:Hcl.
  - eexists _, [Savefig; ClosePlot]. split; [done|]. split; [|done].
    intros ?? [= <-] Hsv' _. congruence.
  - eexists _, [Savefig; ClosePlot]. split; [done|]. split; [|done].
    intros ?? [= <-] _ Hcl'. congruence.
Qed.

(** The last close is the cell under Close in the last row kept. *)
Lemma last_close_is_final_close (d : Frame.clean) (x : float) :
  Frame.last_close d = Ok x →
  ∃ row, last (Frame.rows d) = Some row
         ∧ Frame.under (Frame.columns d) "Close" row = [x].
Proof.
  unfold Frame.last_close. case_bool_decide; [|done].
  destruct (last (Frame.rows d)) as [row|]; [|done].
  destruct (Frame.under _ _ row) as [|y [|??]] eqn:Hu; [done| |done].
  intros [= ->]. by exists row.
Qed.

(** C1, as the specification states it, fails: the least positive float
    is a positive close whose hundredth rounds to zero. *)
Lemma brick_size_of_tiny_close_is_zero :
  valid min_subnormal = true
  ∧ ltb zero min_subnormal = true
  ∧ Frame.last_close (Frame.cleaned (bars "X.NS" 10 min_subnormal))
    = Ok min_subnormal
  ∧ calculate_brick_size min_subnormal = zero
  ∧ ltb zero (calculate_brick_size min_subnormal) = false
  ∧ (∃ r rest,
       fetch_and_plot_renko (steady_world (bars "X.NS" 10 min_subnormal))
                            "X.NS" fresh
       = (Ret r,
          mk_state None
            ([Download "X.NS" 19820 20000;
              Plot (Frame.cleaned (bars "X.NS" 10 min_subnormal)) zero
                   "X.NS Renko Chart"] ++ rest))).
Proof.
  repeat split; try by vm_compute.
  eexists _, _. by vm_compute.
Qed.

(** C1, amended. The brick size handed to the renderer is the binary64
    product of the close of the last bar kept and the literal [0.01]; it
    is positive when that close is at least [50 * 2^-1074], and [0.0]
    for the positive closes below that. *)
Theorem brick_size_is_hundredth_of_last_close
    (w : world) (ticker : string) (st : state)
    (d : Frame.raw) (x : float) :
  download w ticker (window_start w) (today w) = Ok d →
  Frame.raw_empty d = false →
  Frame.too_short (Frame.cleaned d) = false →
  Frame.last_close (Frame.cleaned d) = Ok x →
  valid x = true →
  (∃ row, last (Frame.rows (Frame.cleaned d)) = Some row
          ∧ Frame.under (Frame.columns (Frame.cleaned d)) "Close" row = [x])
  ∧ (∃ r rest,
       fetch_and_plot_renko w ticker st
       = (Ret r,
          logged st ([ev_download w ticker;
                      Plot (Frame.cleaned d) (mul x hundredth)
                           (ticker +:+ " Renko Chart")] ++ rest)))
  ∧ calculate_brick_size x = mul x hundredth
  ∧ (leb brick_threshold x = true → ltb zero (calculate_brick_size x) = true)
  ∧ (ltb zero x = true → leb brick_threshold x = false →
     calculate_brick_size x = zero).
Proof.
  intros Hd He Hs Hc Hv.
  split; [by apply last_close_is_final_close|]. split; [|split; [done|split]].
  - destruct (fetch_reaches_plot w ticker st d x Hd He Hs Hc)
      as (r & rest & Hf & _). by exists r, rest.
  - by apply brick_positive.
  - by apply brick_underflow.
Qed.

Lemma brick_size_witness :
  ltb zero (calculate_brick_size (of_Z 100)) = true.
Proof.
  apply (brick_size_is_hundredth_of_last_close
           (steady_world (bars "X.NS" 10 (of_Z 100))) "X.NS" fresh
           (bars "X.NS" 10 (of_Z 100)) (of_Z 100));
    reflexivity.
Defined.

(** C2, as the specification states it, fails: a last close of [-1.0]
    is not rejected; the renderer is called with the brick size [-0.01],
    and with a renderer that draws it the chart comes back. *)
Lemma nonpositive_close_is_not_rejected :
  Frame.last_close (Frame.cleaned (bars "X.NS" 10 minus_one)) = Ok minus_one
  ∧ leb minus_one zero = true
  ∧ calculate_brick_size minus_one = S754_finite true 5764607523034235 (-59)
  ∧ fetch_and_plot_renko (steady_world (bars "X.NS" 10 minus_one)) "X.NS" fresh
    = (Ret (Some [], None),
       mk_state None
         [Download "X.NS" 19820 20000;
          Plot (Frame.cleaned (bars "X.NS" 10 minus_one))
               (S754_finite true 5764607523034235 (-59)) "X.NS Renko Chart";
          Savefig; ClosePlot]).
Proof. repeat split; by vm_compute. Qed.

(** C2, amended. A last close that is zero or negative is not guarded
    against: the renderer is called with the brick size computed from
    it, which is zero or negative too, and the call returns what the
    rendering gives, the chart or the renderer's error message. *)
Theorem nonpositive_close_reaches_renderer
    (w : world) (ticker : string) (st : state)
    (d : Frame.raw) (x : float) :
  download w ticker (window_start w) (today w) = Ok d →
  Frame.raw_empty d = false →
  Frame.too_short (Frame.cleaned d) = false →
  Frame.last_close (Frame.cleaned d) = Ok x →
  leb x zero = true →
  leb (calculate_brick_size x) zero = true
  ∧ ∃ r rest,
      fetch_and_plot_renko w ticker st
      = (Ret r, logged st ([ev_download w ticker; ev_plot ticker d x] ++ rest))
      ∧ (∀ f buf,
           mpf_plot w (Frame.cleaned d) (calculate_brick_size x)
                    (ticker +:+ " Renko Chart") = Ok f →
           savefig w f = Ok buf → plt_close w f = Ok tt →
           r = (Some buf, None))
      ∧ (∀ e,
           mpf_plot w (Frame.cleaned d) (calculate_brick_size x)
                    (ticker +:+ " Renko Chart") = Fails e →
           r = (None, Some (error_for ticker e))).
Proof.
  intros Hd He Hs Hc Hx. split; [by apply brick_of_nonpositive|].
  by apply fetch_reaches_plot.
Qed.

Lemma nonpositive_close_witness :
  leb (calculate_brick_size minus_one) zero = true.
Proof.
  apply (nonpositive_close_reaches_renderer
           (steady_world (bars "X.NS" 10 minus_one)) "X.NS" fresh
           (bars "X.NS" 10 minus_one) minus_one);
    reflexivity.
Defined.

End BrickSizeInFetch.

(** ** Too little data *)

Section ShortHistory.
Import Eff Renko Float64 Sample.

(** C3, as the specification states it, fails: a provider frame without
    rows has fewer than 10 valid rows, and the message is the one for
    no data, not the one for too little data. *)
Lemma empty_answer_is_no_data :
  (length (Frame.rows (Frame.cleaned (bars "ZZZ.NS" 0 (of_Z 100)))) < 10)%nat
  ∧ fetch_and_plot_renko (steady_world (bars "ZZZ.NS" 0 (of_Z 100))) "ZZZ.NS" fresh
    = (Ret (None, Some "No data for ZZZ.NS"),
       mk_state None [Download "ZZZ.NS" 19820 20000])
  ∧ "No data for ZZZ.NS" ≠ not_enough "ZZZ.NS".
Proof. split; [cbn; lia|]. split; by vm_compute. Qed.

(** C3, amended. When the provider's frame is not empty and fewer than
    10 rows are left after keeping the OHLC columns, coercing them to
    numbers and dropping the rows with a hole, the call returns no chart
    and the message [Not enough valid data for <ticker>]; nothing is
    rendered. *)
Theorem short_history_is_not_enough
    (w : world) (ticker : string) (st : state) (d : Frame.raw) :
  download w ticker (window_start w) (today w) = Ok d →
  Frame.raw_empty d = false →
  (length (Frame.rows (Frame.cleaned d)) < 10)%nat →
  fetch_and_plot_renko w ticker st
  = (Ret (None, Some (not_enough ticker)), logged st [ev_download w ticker]).
Proof.
  intros Hd He Hn. apply (fetch_not_enough _ _ _ _ Hd He).
  unfold Frame.too_short. apply orb_true_iff. right. by apply Nat.ltb_lt.
Qed.

Lemma short_history_witness :
  fetch_and_plot_renko (steady_world three_good_days) "X.NS" fresh
  = (Ret (None, Some (not_enough "X.NS")),
     logged fresh [ev_download (steady_world three_good_days) "X.NS"]).
Proof.
  apply (short_history_is_not_enough
           (steady_world three_good_days) "X.NS" fresh three_good_days).
  - reflexivity.
  - reflexivity.
  - vm_compute. lia.
Defined.

End ShortHistory.

(** ** The page *)

Section Page.
Import Eff Renko App PyStr Sample.

Variable c : catalog.
Variable w : world.
Variable wd : widgets.

Lemma fetch_starts_with_download (ticker : string) (st : state) :
  ∃ r rest, fetch_and_plot_renko w ticker st
            = (Ret r, logged st (ev_download w ticker :: rest)).
Proof.
  destruct (download w ticker (window_start w) (today w)) as [d|e] eqn:Hd.
  2: { rewrite (fetch_download_fails _ _ _ _ Hd). by eexists _, []. }
  destruct (Frame.raw_empty d) eqn:He.
  { rewrite (fetch_no_data _ _ _ _ Hd He). by eexists _, []. }
  destruct (Frame.too_short (Frame.cleaned d)) eqn:Hs.
  { rewrite (fetch_not_enough _ _ _ _ Hd He Hs). by eexists _, []. }
  destruct (Frame.last_close (Frame.cleaned d)) as [x|e] eqn:Hc.
  2: { rewrite (fetch_close_fails _ _ _ _ _ Hd He Hs Hc). by eexists _, []. }
  destruct (fetch_reaches_plot w ticker st d x Hd He Hs Hc)
    as (r & rest & -> & _). by eexists _, _.
Qed.

Lemma for_each_buttons (xs : list string) (st : state) :
  ∃ o (es : list event) st',
    for_each xs (λ suggestion,
      exec emit (Button suggestion);
      if button wd suggestion
      then exec set_session suggestion; rerun
      else ret tt) st = (o, st')
    ∧ log st' = (log st ++ es)%list
    ∧ Forall suggestion_event es
    ∧ (o = Rerun ∨ o = Ret tt ∧ session st' = session st).
Proof.
  revert st. induction xs as [|x xs IH]; intros st.
  - exists (Ret tt), [], st. split; [done|].
    split; [by rewrite app_nil_r|]. split; [constructor|by right].
  - cbn [for_each]. unfold bind at 1. unfold bind at 1. unfold emit at 1.
    destruct (button wd x) eqn:Hb.
    + unfold bind, set_session, rerun. cbn.
      eexists _, [Button x], _. split; [done|]. cbn. split; [done|].
      split; [by repeat constructor|by left].
    + unfold ret at 1.
      destruct (IH {| session := session st; log := log st ++ [Button x] |})
        as (o & es & st' & -> & Hlog & Hes & Ho).
      exists o, (Button x :: es), st'. split; [done|].
      cbn in Hlog. rewrite Hlog, <- app_assoc. split; [done|].
      split; [by constructor|]. exact Ho.
Qed.

Lemma show_suggestions_log (search_term : string) (st : state) :
  ∃ o (es : list event) st',
    show_suggestions c wd search_term st = (o, st')
    ∧ log st' = (log st ++ es)%list
    ∧ Forall suggestion_event es
    ∧ (o = Rerun ∨ o = Ret tt ∧ session st' = session st).
Proof.
  unfold show_suggestions.
  destruct (index_selected wd && truthy search_term).
  2: { exists (Ret tt), [], st. split; [done|].
    split; [by rewrite app_nil_r|]. split; [constructor|by right]. }
  destruct (suggestions _ _) as [|s ss] eqn:Hfound.
  { exists (Ret tt), [], st. split; [done|].
    split; [by rewrite app_nil_r|]. split; [constructor|by right]. }
  unfold bind at 1. unfold emit at 1.
  destruct (for_each_buttons (sorted (s :: ss))
              {| session := session st; log := log st ++ [OpenSuggestions] |})
    as (o & es & st' & Hrun & Hlog & Hes & Ho).
  unfold bind at 1. rewrite Hrun. cbn in Hlog.
  destruct Ho as [->|[-> Hsess]].
  - exists Rerun, (OpenSuggestions :: es), st'. split; [done|].
    rewrite Hlog, <- app_assoc. split; [done|]. split; [by constructor|by left].
  - exists (Ret tt), (OpenSuggestions :: es ++ [CloseSuggestions]).
    eexists. split; [done|]. cbn. rewrite Hlog, <- !app_assoc.
    split; [done|]. split; [|by right].
    constructor; [done|]. apply Forall_app. by repeat constructor.
Qed.

Lemma for_each_buttons_unclicked (xs : list string) (st : state) :
  (∀ s, button wd s = false) →
  for_each xs (λ suggestion,
    exec emit (Button suggestion);
    if button wd suggestion
    then exec set_session suggestion; rerun
    else ret tt) st = (Ret tt, logged st (map Button xs)).
Proof.
  intros Hno. revert st. induction xs as [|x xs IH]; intros st.
  - unfold logged. cbn. rewrite app_nil_r. by destruct st.
  - cbn [for_each]. unfold bind at 1. unfold bind at 1. unfold emit at 1.
    rewrite Hno. unfold ret at 1. rewrite IH. unfold logged. cbn.
    by rewrite <- app_assoc.
Qed.

(** With a filter active, a search term and no click, the buttons on the
    page are the sorted suggestions, in that order. *)
Lemma show_suggestions_shows_sorted (search_term : string) (st : state) :
  index_selected wd = true →
  search_term ≠ "" →
  (∀ s, button wd s = false) →
  show_suggestions c wd search_term st
  = (Ret tt,
     match suggestions (available_stocks c wd) search_term with
     | [] => st
     | found => logged st ([OpenSuggestions] ++ map Button (sorted found)
                           ++ [CloseSuggestions])
     end).
Proof.
  intros Hidx Hterm%truthy_true Hno. unfold show_suggestions.
  rewrite Hidx, Hterm. cbn [andb].
  destruct (suggestions _ _) as [|s ss]; [done|].
  unfold bind at 1. unfold emit at 1. unfold bind at 1.
  rewrite (for_each_buttons_unclicked _ _ Hno). unfold emit, logged. cbn.
  by rewrite <- !app_assoc.
Qed.

End Page.

Section PageClaims.
Import Eff Renko App PyStr Sample.

Variable c : catalog.
Variable w : world.
Variable wd : widgets.

Lemma show_chart_refuses (search_term : string) (st : state) (stock : string) :
  stock_to_plot (default "" (session st)) search_term = Some stock →
  index_selected wd = true →
  stock ∉ available_stocks c wd →
  show_chart c w wd search_term st
  = (Ret tt, logged st [ErrorBox validation_message]).
Proof.
  intros Hstock Hidx Hnot.
  unfold show_chart, selected_stock, bind, get_session, ret.
  by rewrite Hstock, Hidx, bool_decide_eq_false_2.
Qed.

Lemma after_init_keeps (st : state) :
  default "" (session (after_init st)) = default "" (session st)
  ∧ log (after_init st) = log st.
Proof. by destruct st as [[s|] lg]. Qed.

Lemma init_session_runs (st : state) :
  init_session st = (Ret tt, after_init st).
Proof. by destruct st as [[s|] lg]. Qed.

(** C8. With an index filter active and a ticker to plot that is not in
    the filter set, the page shows the validation error and nothing
    after it: the run logs no call to the provider or the renderer and
    no image. *)
Theorem invalid_stock_is_not_fetched (st : state) (stock : string) :
  index_selected wd = true →
  stock_to_plot (default "" (session st)) (normalize (search_input wd))
    = Some stock →
  stock ∉ available_stocks c wd →
  show_chart c w wd (normalize (search_input wd)) st
    = (Ret tt, logged st [ErrorBox validation_message])
  ∧ ∃ o (es : list event) st',
      app c w wd st = (o, st')
      ∧ log st' = (log st ++ es)%list
      ∧ Forall refusal_event es
      ∧ (o = Rerun ∨ o = Ret tt ∧ last es = Some (ErrorBox validation_message)).
Proof.
  intros Hidx Hstock Hnot. split; [by eapply show_chart_refuses|].
  unfold app. unfold bind at 1. rewrite init_session_runs.
  set (st1 := after_init st).
  destruct (after_init_keeps st) as [Hs1 Hl1]. fold st1 in Hs1, Hl1.
  destruct (show_suggestions_log c wd (normalize (search_input wd)) st1)
    as (o & es & st2 & Hrun & Hlog & Hes & Ho).
  unfold bind. rewrite Hrun. destruct Ho as [->|[-> Hs2]].
  - exists Rerun, es, st2. split; [done|]. rewrite Hlog, Hl1.
    split; [done|]. split; [|by left].
    eapply Forall_impl; [exact Hes|]. by left.
  - rewrite (show_chart_refuses _ st2 stock); [|by rewrite Hs2, Hs1|done|done].
    exists (Ret tt), (es ++ [ErrorBox validation_message])%list. eexists.
    split; [done|]. cbn. rewrite Hlog, Hl1, <- app_assoc. split; [done|].
    split; [|right; split; [done|by rewrite last_snoc]].
    rewrite Forall_app. split.
    + eapply Forall_impl; [exact Hes|]. by left.
    + constructor; [by right|constructor].
Qed.

(** C9. When the session holds a selected stock, that stock is the one
    validated and plotted, whatever the search box says; the search term
    is plotted when nothing is selected. *)
Theorem selection_overrides_search_term
    (st : state) (sel search_term : string) :
  session st = Some sel →
  sel ≠ "" →
  stock_to_plot sel search_term = Some sel
  ∧ (∀ other, show_chart c w wd search_term st = show_chart c w wd other st)
  ∧ (index_selected wd && negb (bool_decide (sel ∈ available_stocks c wd)) = true →
     show_chart c w wd search_term st
     = (Ret tt, logged st [ErrorBox validation_message]))
  ∧ (index_selected wd && negb (bool_decide (sel ∈ available_stocks c wd)) = false →
     ∃ o msg (rest : list event) st',
       show_chart c w wd search_term st = (o, st')
       ∧ log st' = (log st ++ [Write msg; Subheader ("Renko Chart for " +:+ sel);
                               ev_download w sel] ++ rest)%list)
  ∧ (∀ typed, typed ≠ "" → stock_to_plot "" typed = Some typed).
Proof.
  intros Hsel Hne.
  assert (∀ t, stock_to_plot sel t = Some sel) as Hplot.
  { intros t. unfold stock_to_plot. apply truthy_true in Hne.
    by rewrite Hne, orb_true_r. }
  assert (∀ t, show_chart c w wd t st
               = if index_selected wd
                    && negb (bool_decide (sel ∈ available_stocks c wd))
                 then (Ret tt, logged st [ErrorBox validation_message])
                 else show_chart c w wd sel st) as Hshow.
  { intros t. unfold show_chart, selected_stock, bind, get_session, ret.
    rewrite Hsel. cbn [default]. rewrite !Hplot.
    by destruct (index_selected wd && _). }
  split; [done|]. split; [|split; [|split]].
  - intros other. by rewrite (Hshow search_term), (Hshow other).
  - intros Hbad. by rewrite Hshow, Hbad.
  - intros Hgood. rewrite Hshow, Hgood.
    unfold show_chart, selected_stock. unfold bind at 1.
    unfold get_session at 1. unfold bind at 1. unfold ret at 1.
    rewrite Hsel. cbn [default]. rewrite Hplot, Hgood.
    set (msg := match tags c sel with
                | [] => "Stock " +:+ sel +:+ " is not tagged in any predefined indices."
                | _ => "Stock " +:+ sel +:+ " is tagged in: " +:+ join ", " (tags c sel)
                end).
    assert (∀ s, (match tags c sel with
                  | [] => emit (Write ("Stock " +:+ sel +:+ " is not tagged in any predefined indices."))
                  | _ => emit (Write ("Stock " +:+ sel +:+ " is tagged in: " +:+ join ", " (tags c sel)))
                  end) s = emit (Write msg) s) as Hw
      by (intros s; unfold msg; by destruct (tags c sel)).
    unfold bind at 1. rewrite Hw. unfold emit at 1.
    unfold bind at 1. unfold emit at 1. unfold bind at 1.
    match goal with
    | |- context [fetch_and_plot_renko w sel ?s] =>
        destruct (fetch_starts_with_download w sel s) as (r & rest & ->)
    end.
    destruct r as [[png|] err]; unfold emit, logged; cbn [session log];
      eexists _, msg, _, _; (split; [done|]); cbn [log];
      by rewrite <- !app_assoc.
  - intros typed Ht. unfold stock_to_plot. apply truthy_true in Ht.
    by rewrite Ht.
Qed.

End PageClaims.

Section PageWitnesses.
Import Eff Renko App Sample.

Lemma invalid_stock_witness :
  show_chart small_catalog (steady_world (bars "TCS.NS" 10 (of_Z 100)))
             (defense_only "tcs") (normalize "tcs") fresh
  = (Ret tt, logged fresh [ErrorBox validation_message]).
Proof.
  apply (invalid_stock_is_not_fetched
           small_catalog (steady_world (bars "TCS.NS" 10 (of_Z 100)))
           (defense_only "tcs") fresh "TCS.NS").
  - reflexivity.
  - reflexivity.
  - apply (bool_decide_eq_false_1 _). vm_compute. reflexivity.
Defined.

Lemma selection_witness :
  stock_to_plot "BEL.NS" "TCS.NS" = Some "BEL.NS".
Proof.
  apply (selection_overrides_search_term
           small_catalog (steady_world (bars "BEL.NS" 10 (of_Z 100)))
           (defense_only "tcs") (mk_state (Some "BEL.NS") [])
           "BEL.NS" "TCS.NS").
  - reflexivity.
  - discriminate.
Defined.

End PageWitnesses.


(** * Further properties *)

(** ** Cleaning the provider's frame *)

Section Cleaning.
Import Float64 Frame Sample.

Lemma elem_of_select_names (names ws : list string) (c : string) :
  c ∈ select_names names ws ↔ c ∈ ws ∧ c ∈ names.
Proof.
  unfold select_names. rewrite list_elem_of_bind. split.
  - intros (w & Hc & Hw). apply list_elem_of_filter in Hc as [-> Hc]. done.
  - intros [Hw Hc]. exists c. split; [|done]. by apply list_elem_of_filter.
Qed.

Lemma elem_of_wanted (names : list string) (c : string) :
  c ∈ wanted names ↔ c ∈ ohlc_cols ∧ c ∈ names.
Proof. unfold wanted. rewrite list_elem_of_filter. tauto. Qed.

Lemma elem_of_columns_cleaned (d : raw) (c : string) :
  c ∈ columns (cleaned d) ↔ c ∈ ohlc_cols ∧ c ∈ flatten (raw_columns d).
Proof.
  unfold cleaned. cbn [columns]. rewrite elem_of_select_names, elem_of_wanted.
  tauto.
Qed.

Lemma length_under {A} (names : list string) (w : string) (row : list A) :
  length row = length names →
  length (under names w row) = length (filter (λ n, n = w) names).
Proof.
  unfold under. rewrite length_map. revert row.
  induction names as [|n names IH]; intros [|x row] Hlen; try done.
  cbn [zip zip_with]. rewrite !filter_cons. cbn [fst].
  injection Hlen as Hlen. destruct (decide (n = w)); cbn; by rewrite IH.
Qed.

Lemma length_select_row {A} (names ws : list string) (row : list A) :
  length row = length names →
  length (select_row names ws row) = length (select_names names ws).
Proof.
  intros Hlen. unfold select_row, select_names.
  induction ws as [|w ws IH]; [done|]. cbn.
  by rewrite !length_app, IH, length_under.
Qed.

Lemma n_columns_flatten (l : labels) : n_columns l = length (flatten l).
Proof. destruct l; cbn; by rewrite ?length_map. Qed.

Lemma has_nan_false (row : list float) :
  has_nan row = false ↔ Forall (λ x, is_nan x = false) row.
Proof.
  unfold has_nan. induction row as [|x row IH]; cbn.
  - split; [constructor|done].
  - rewrite orb_false_iff, IH. split.
    + intros [??]. by constructor.
    + by intros [??]%Forall_cons.
Qed.

Lemma length_rows_cleaned (d : raw) :
  (length (rows (cleaned d)) <= length (raw_rows d))%nat.
Proof.
  cbn. unfold dropna.
  etrans; [apply List.filter_length_le|]. by rewrite length_map.
Qed.

(** X8. After cleaning every column is one of Open, High, Low and Close
    and comes from the provider's frame, no cell is NaN, and, the
    provider's rows having one cell per column, so have the rows kept. *)
Theorem cleaned_frame_is_ohlc_and_numeric (d : raw) :
  Forall (λ row, length row = n_columns (raw_columns d)) (raw_rows d) →
  Forall (λ c, c ∈ ohlc_cols ∧ c ∈ flatten (raw_columns d)) (columns (cleaned d))
  ∧ Forall (λ row, Forall (λ x, is_nan x = false) row
                   ∧ length row = length (columns (cleaned d)))
           (rows (cleaned d)).
Proof.
  intros Hwf. split.
  - apply Forall_forall. intros c. by rewrite elem_of_columns_cleaned.
  - apply Forall_forall. intros row Hrow. apply list_elem_of_In in Hrow.
    cbn in Hrow. unfold dropna in Hrow. apply filter_In in Hrow as [Hrow Hnan].
    split; [apply has_nan_false; by apply negb_true_iff|].
    apply in_map_iff in Hrow as (r & <- & Hr).
    rewrite length_map. cbn. apply length_select_row.
    rewrite Forall_forall in Hwf. rewrite <- n_columns_flatten.
    by apply Hwf, list_elem_of_In.
Qed.

Lemma cleaned_frame_witness :
  Forall (λ row, Forall (λ x, is_nan x = false) row
                 ∧ length row = length (columns (cleaned three_good_days)))
         (rows (cleaned three_good_days)).
Proof.
  apply (cleaned_frame_is_ohlc_and_numeric three_good_days).
  vm_compute. repeat constructor.
Defined.

Lemma filter_eq_absent (names : list string) (w : string) :
  w ∉ names → filter (λ n, n = w) names = [].
Proof.
  induction names as [|n names IH]; [done|].
  intros [Hn Hw]%not_elem_of_cons. rewrite filter_cons.
  rewrite decide_False by done. by apply IH.
Qed.

Lemma filter_eq_NoDup (names : list string) (w : string) :
  NoDup names → w ∈ names → filter (λ n, n = w) names = [w].
Proof.
  induction 1 as [|n names Hn Hnd IH]; [by intros ?%elem_of_nil|].
  rewrite filter_cons. intros [->|Hw]%elem_of_cons.
  - rewrite decide_True by done. f_equal. by apply filter_eq_absent.
  - rewrite decide_False by (intros ->; done). by apply IH.
Qed.

(** X9. The order in which the provider lists the columns does not
    matter: when its labels are distinct and include the four OHLC
    labels, the cleaned frame has the columns Open, High, Low, Close, in
    that order. *)
Theorem cleaned_columns_are_in_ohlc_order (d : raw) :
  NoDup (flatten (raw_columns d)) →
  (∀ c, c ∈ ohlc_cols → c ∈ flatten (raw_columns d)) →
  columns (cleaned d) = ["Open"; "High"; "Low"; "Close"].
Proof.
  intros Hnd Hall. cbn [cleaned columns].
  assert (wanted (flatten (raw_columns d)) = ohlc_cols) as ->.
  { unfold wanted, ohlc_cols in *.
    rewrite !filter_cons, filter_nil.
    rewrite !decide_True; [done|apply Hall..]; set_solver. }
  unfold select_names, ohlc_cols. rewrite !bind_cons. cbn [mbind list_bind].
  rewrite !filter_eq_NoDup; [done|done|apply Hall..|done|apply Hall|done|apply Hall|done|apply Hall];
    unfold ohlc_cols; set_solver.
Qed.

Lemma cleaned_columns_witness :
  columns (cleaned (bars "X.NS" 10 (of_Z 100))) = ["Open"; "High"; "Low"; "Close"].
Proof.
  apply cleaned_columns_are_in_ohlc_order.
  - apply (bool_decide_eq_true_1 _). vm_compute. reflexivity.
  - intros c Hc. apply (bool_decide_eq_true_1 _).
    revert c Hc. apply Forall_forall. vm_compute. repeat constructor.
Defined.

End Cleaning.


(** ** The ways through the chart function *)

Section FetchWays.
Import Eff Renko Float64 Sample.

(** X1. A frame without rows, or without columns, is answered with
    [No data for <ticker>]; the provider is the only collaborator
    called. *)
Theorem empty_frame_is_no_data
    (w : world) (ticker : string) (st : state) (d : Frame.raw) :
  download w ticker (window_start w) (today w) = Ok d →
  Frame.raw_rows d = [] ∨ Frame.flatten (Frame.raw_columns d) = [] →
  fetch_and_plot_renko w ticker st
  = (Ret (None, Some ("No data for " +:+ ticker)), logged st [ev_download w ticker]).
Proof.
  intros Hd Hempty. apply (fetch_no_data _ _ _ _ Hd).
  unfold Frame.raw_empty. rewrite n_columns_flatten.
  destruct Hempty as [-> | ->]; cbn; by rewrite ?orb_true_r.
Qed.

Lemma empty_frame_witness :
  fetch_and_plot_renko (steady_world (bars "ZZZ.NS" 0 (of_Z 100))) "ZZZ.NS" fresh
  = (Ret (None, Some "No data for ZZZ.NS"),
     logged fresh [ev_download (steady_world (bars "ZZZ.NS" 0 (of_Z 100))) "ZZZ.NS"]).
Proof.
  apply (empty_frame_is_no_data
           (steady_world (bars "ZZZ.NS" 0 (of_Z 100))) "ZZZ.NS" fresh
           (bars "ZZZ.NS" 0 (of_Z 100))).
  - reflexivity.
  - left. reflexivity.
Defined.

(** X2. Every call asks the provider exactly once, before anything else,
    for the 180 days that end today. *)
Theorem provider_is_called_once (w : world) (ticker : string) (st : state) :
  ∃ r rest,
    fetch_and_plot_renko w ticker st
    = (Ret r, logged st (Download ticker (today w - 180) (today w) :: rest))
    ∧ Forall (λ e, is_download e = false) rest.
Proof.
  change (Download ticker (today w - 180) (today w)) with (ev_download w ticker).
  destruct (download w ticker (window_start w) (today w)) as [d|e] eqn:Hd.
  2: { rewrite (fetch_download_fails _ _ _ _ Hd). by eexists _, []. }
  destruct (Frame.raw_empty d) eqn:He.
  { rewrite (fetch_no_data _ _ _ _ Hd He). by eexists _, []. }
  destruct (Frame.too_short (Frame.cleaned d)) eqn:Hs.
  { rewrite (fetch_not_enough _ _ _ _ Hd He Hs). by eexists _, []. }
  destruct (Frame.last_close (Frame.cleaned d)) as [x|e] eqn:Hc.
  2: { rewrite (fetch_close_fails _ _ _ _ _ Hd He Hs Hc). by eexists _, []. }
  rewrite (fetch_renders _ _ _ _ _ Hd He Hs Hc).
  destruct (mpf_plot _ _ _ _) as [f|e].
  2: { eexists _, [_]. split; [done|]. by repeat constructor. }
  destruct (savefig w f) as [buf|e].
  2: { eexists _, [_; _]. split; [done|]. by repeat constructor. }
  destruct (plt_close w f) as [[]|e];
    (eexists _, [_; _; _]; split; [done|]; by repeat constructor).
Qed.

(** X3. When every step succeeds the answer is the buffer the figure was
    saved into, and the calls are, in this order: download, plot, save,
    close. *)
Theorem chart_is_the_saved_figure
    (w : world) (ticker : string) (st : state)
    (d : Frame.raw) (x : float) (f : fig w) (buf : list Byte.byte) :
  download w ticker (window_start w) (today w) = Ok d →
  Frame.raw_empty d = false →
  Frame.too_short (Frame.cleaned d) = false →
  Frame.last_close (Frame.cleaned d) = Ok x →
  mpf_plot w (Frame.cleaned d) (calculate_brick_size x)
           (ticker +:+ " Renko Chart") = Ok f →
  savefig w f = Ok buf →
  plt_close w f = Ok tt →
  fetch_and_plot_renko w ticker st
  = (Ret (Some buf, None),
     logged st [ev_download w ticker; ev_plot ticker d x; Savefig; ClosePlot]).
Proof.
  intros Hd He Hs Hc Hp Hsv Hcl.
  by rewrite (fetch_renders _ _ _ _ _ Hd He Hs Hc), Hp, Hsv, Hcl.
Qed.

Lemma chart_witness :
  fetch_and_plot_renko (steady_world (bars "X.NS" 10 (of_Z 100))) "X.NS" fresh
  = (Ret (Some [], None),
     logged fresh
       [ev_download (steady_world (bars "X.NS" 10 (of_Z 100))) "X.NS";
        ev_plot "X.NS" (bars "X.NS" 10 (of_Z 100)) (of_Z 100); Savefig; ClosePlot]).
Proof.
  apply (chart_is_the_saved_figure
           (steady_world (bars "X.NS" 10 (of_Z 100))) "X.NS" fresh
           (bars "X.NS" 10 (of_Z 100)) (of_Z 100) tt []);
    reflexivity.
Defined.

(** X4. When saving the figure fails the figure is never closed: the
    call returns the error message and [plt.close] is not reached. *)
Theorem failed_save_leaves_figure_open
    (w : world) (ticker : string) (st : state)
    (d : Frame.raw) (x : float) (f : fig w) (e : exn) :
  download w ticker (window_start w) (today w) = Ok d →
  Frame.raw_empty d = false →
  Frame.too_short (Frame.cleaned d) = false →
  Frame.last_close (Frame.cleaned d) = Ok x →
  mpf_plot w (Frame.cleaned d) (calculate_brick_size x)
           (ticker +:+ " Renko Chart") = Ok f →
  savefig w f = Fails e →
  fetch_and_plot_renko w ticker st
  = (Ret (None, Some (error_for ticker e)),
     logged st [ev_download w ticker; ev_plot ticker d x; Savefig]).
Proof.
  intros Hd He Hs Hc Hp Hsv.
  by rewrite (fetch_renders _ _ _ _ _ Hd He Hs Hc), Hp, Hsv.
Qed.

Lemma failed_save_witness :
  fetch_and_plot_renko
    (unsaved_world (bars "X.NS" 10 (of_Z 100)) (mk_exn "OSError" "disk full"))
    "X.NS" fresh
  = (Ret (None, Some "Error for X.NS: disk full"),
     logged fresh
       [Download "X.NS" 19820 20000;
        ev_plot "X.NS" (bars "X.NS" 10 (of_Z 100)) (of_Z 100); Savefig]).
Proof.
  apply (failed_save_leaves_figure_open
           (unsaved_world (bars "X.NS" 10 (of_Z 100)) (mk_exn "OSError" "disk full"))
           "X.NS" fresh (bars "X.NS" 10 (of_Z 100)) (of_Z 100) tt
           (mk_exn "OSError" "disk full"));
    reflexivity.
Defined.

(** X5. A provider frame of fewer than 10 rows never gives a chart:
    cleaning adds no row, so the answer is one of the two messages about
    missing data and the renderer is not called. *)
Theorem few_provider_rows_give_no_chart
    (w : world) (ticker : string) (st : state) (d : Frame.raw) :
  download w ticker (window_start w) (today w) = Ok d →
  (length (Frame.raw_rows d) < 10)%nat →
  ∃ msg, fetch_and_plot_renko w ticker st
         = (Ret (None, Some msg), logged st [ev_download w ticker])
         ∧ (msg = no_data ticker ∨ msg = not_enough ticker).
Proof.
  intros Hd Hlen. destruct (Frame.raw_empty d) eqn:He.
  - exists (no_data ticker). split; [|by left]. by apply fetch_no_data with d.
  - exists (not_enough ticker). split; [|by right].
    apply (fetch_not_enough _ _ _ _ Hd He). unfold Frame.too_short.
    apply orb_true_iff. right. apply Nat.ltb_lt.
    pose proof (length_rows_cleaned d). lia.
Qed.

Lemma few_provider_rows_witness :
  ∃ msg, fetch_and_plot_renko (steady_world (bars "X.NS" 5 (of_Z 100))) "X.NS" fresh
         = (Ret (None, Some msg),
            logged fresh [ev_download (steady_world (bars "X.NS" 5 (of_Z 100))) "X.NS"])
         ∧ (msg = no_data "X.NS" ∨ msg = not_enough "X.NS").
Proof.
  apply (few_provider_rows_give_no_chart
           (steady_world (bars "X.NS" 5 (of_Z 100))) "X.NS" fresh
           (bars "X.NS" 5 (of_Z 100))).
  - reflexivity.
  - vm_compute. lia.
Defined.

(** X6. A frame with enough rows but no Close column is answered with
    the [KeyError]'s text: [Error for <ticker>: 'Close']. *)
Theorem missing_close_is_reported
    (w : world) (ticker : string) (st : state) (d : Frame.raw) :
  download w ticker (window_start w) (today w) = Ok d →
  Frame.raw_empty d = false →
  Frame.too_short (Frame.cleaned d) = false →
  "Close" ∉ Frame.flatten (Frame.raw_columns d) →
  fetch_and_plot_renko w ticker st
  = (Ret (None, Some ("Error for " +:+ ticker +:+ ": 'Close'")),
     logged st [ev_download w ticker]).
Proof.
  intros Hd He Hs Hno.
  apply (fetch_close_fails _ _ _ _ (mk_exn "KeyError" "'Close'") Hd He Hs).
  apply missing_close_column. rewrite elem_of_columns_cleaned. tauto.
Qed.

Lemma missing_close_witness :
  fetch_and_plot_renko
    (steady_world (twelve_days ["Open"; "High"; "Low"; "Volume"])) "X.NS" fresh
  = (Ret (None, Some "Error for X.NS: 'Close'"),
     logged fresh [Download "X.NS" 19820 20000]).
Proof.
  apply (missing_close_is_reported
           (steady_world (twelve_days ["Open"; "High"; "Low"; "Volume"]))
           "X.NS" fresh (twelve_days ["Open"; "High"; "Low"; "Volume"])).
  - reflexivity.
  - reflexivity.
  - reflexivity.
  - apply (bool_decide_eq_false_1 _). vm_compute. reflexivity.
Defined.

(** X7. A frame that has none of the four OHLC columns is answered with
    [Not enough valid data for <ticker>], however many rows it has. *)
Theorem no_ohlc_column_is_not_enough
    (w : world) (ticker : string) (st : state) (d : Frame.raw) :
  download w ticker (window_start w) (today w) = Ok d →
  Frame.raw_empty d = false →
  (∀ c, c ∈ Frame.ohlc_cols → c ∉ Frame.flatten (Frame.raw_columns d)) →
  fetch_and_plot_renko w ticker st
  = (Ret (None, Some (not_enough ticker)), logged st [ev_download w ticker]).
Proof.
  intros Hd He Hno. apply (fetch_not_enough _ _ _ _ Hd He).
  unfold Frame.too_short, Frame.empty.
  destruct (Frame.columns (Frame.cleaned d)) as [|c cs] eqn:Hcols; [done|].
  assert (c ∈ Frame.columns (Frame.cleaned d)) as Hc
    by (rewrite Hcols; apply elem_of_cons; by left).
  apply elem_of_columns_cleaned in Hc as [Hc1 Hc2]. by destruct (Hno c).
Qed.

Lemma no_ohlc_column_witness :
  fetch_and_plot_renko
    (steady_world (twelve_days ["Volume"; "Dividends"])) "X.NS" fresh
  = (Ret (None, Some (not_enough "X.NS")),
     logged fresh [ev_download (steady_world (twelve_days ["Volume"; "Dividends"])) "X.NS"]).
Proof.
  apply (no_ohlc_column_is_not_enough
           (steady_world (twelve_days ["Volume"; "Dividends"]))
           "X.NS" fresh (twelve_days ["Volume"; "Dividends"])).
  - reflexivity.
  - reflexivity.
  - intros c Hc. apply (bool_decide_eq_false_1 _).
    revert c Hc. apply Forall_forall. vm_compute. repeat constructor.
Defined.

End FetchWays.


(** ** More on the brick size *)

Section BrickSizeMore.
Import Eff Renko Float64 Sample.

Lemma sign_bit_brick_size (x : float) :
  sign_bit (calculate_brick_size x) = sign_bit x.
Proof.
  destruct x as [[]|[]| |s m e]; try done.
  unfold calculate_brick_size, mul, hundredth. cbn [SFmul].
  rewrite xorb_false_r.
  pose proof (binary_round_aux_sign s (m * 5764607523034235) (e + -59)) as H.
  destruct (binary_round_aux _ _ _ _ _ _) as [s'|s'| |s' ??]; by subst.
Qed.

(** X11. The brick size has the sign of the price, and is NaN only for a
    NaN price; a zero price gives the zero brick size of that sign and an
    infinite price the infinite one. *)
Theorem brick_size_keeps_sign (x : float) :
  sign_bit (calculate_brick_size x) = sign_bit x
  ∧ (∀ s, calculate_brick_size (S754_zero s) = S754_zero s)
  ∧ (∀ s, calculate_brick_size (S754_infinity s) = S754_infinity s).
Proof. split; [apply sign_bit_brick_size|split; by intros []]. Qed.

Lemma elem_of_under {A} (names : list string) (w : string) (row : list A) (x : A) :
  x ∈ Frame.under names w row → x ∈ row.
Proof.
  unfold Frame.under. intros ([n y] & -> & Hy)%list_elem_of_fmap.
  apply list_elem_of_filter in Hy as [_ Hy]. by apply elem_of_zip_r in Hy.
Qed.

(** X10. The last close read from a cleaned frame is never NaN, and
    neither is the brick size computed from it. *)
Theorem brick_size_is_a_number (d : Frame.raw) (x : float) :
  Frame.last_close (Frame.cleaned d) = Ok x →
  is_nan x = false ∧ is_nan (calculate_brick_size x) = false.
Proof.
  intros (row & Hlast & Hx)%last_close_is_final_close.
  assert (is_nan x = false) as Hnan.
  { assert (Forall (λ x, is_nan x = false) row) as Hrow.
    { apply has_nan_false, negb_true_iff.
      apply last_Some_elem_of, list_elem_of_In in Hlast. cbn in Hlast.
      unfold Frame.dropna in Hlast. by apply filter_In in Hlast as [_ ?]. }
    rewrite Forall_forall in Hrow. apply Hrow.
    apply (elem_of_under (Frame.columns (Frame.cleaned d)) "Close").
    rewrite Hx. apply elem_of_cons. by left. }
  split; [done|].
  pose proof (sign_bit_brick_size x) as Hs.
  destruct x; try done; by destruct (calculate_brick_size _).
Qed.

Lemma brick_size_is_a_number_witness :
  is_nan (of_Z 100) = false ∧ is_nan (calculate_brick_size (of_Z 100)) = false.
Proof.
  apply (brick_size_is_a_number (bars "X.NS" 10 (of_Z 100)) (of_Z 100)).
  reflexivity.
Defined.

End BrickSizeMore.


(** ** More on the search term *)

Section SearchTermMore.
Import PyStr App.

Lemma is_space_upper_char (c : ascii) : is_space (upper_char c) = is_space c.
Proof. by destruct c as [[] [] [] [] [] [] [] []]. Qed.

Lemma is_space_lower_char (c : ascii) : is_space (lower_char c) = is_space c.
Proof. by destruct c as [[] [] [] [] [] [] [] []]. Qed.

Lemma upper_char_idemp (c : ascii) : upper_char (upper_char c) = upper_char c.
Proof. by destruct c as [[] [] [] [] [] [] [] []]. Qed.

Lemma upper_lower_char (c : ascii) : upper_char (lower_char c) = upper_char c.
Proof. by destruct c as [[] [] [] [] [] [] [] []]. Qed.

Lemma map_chars_compose (f g : ascii -> ascii) (s : string) :
  map_chars f (map_chars g s) = map_chars (λ c, f (g c)) s.
Proof. induction s as [|c s IH]; [done|]. cbn. by rewrite IH. Qed.

Lemma map_chars_ext (f g : ascii -> ascii) (s : string) :
  (∀ c, f c = g c) → map_chars f s = map_chars g s.
Proof. intros H. induction s as [|c s IH]; [done|]. cbn. by rewrite H, IH. Qed.


Section SpacePreserving.
Variable f : ascii -> ascii.
Hypothesis f_space : ∀ c, is_space (f c) = is_space c.

Lemma all_space_map_chars (s : string) :
  all_space (map_chars f s) = all_space s.
Proof. induction s as [|c s IH]; [done|]. cbn. by rewrite f_space, IH. Qed.

Lemma lstrip_map_chars (s : string) :
  lstrip (map_chars f s) = map_chars f (lstrip s).
Proof.
  induction s as [|c s IH]; [done|]. cbn. rewrite f_space.
  by destruct (is_space c).
Qed.

Lemma rstrip_map_chars (s : string) :
  rstrip (map_chars f s) = map_chars f (rstrip s).
Proof.
  induction s as [|c s IH]; [done|].
  cbn [map_chars rstrip].
  change (String (f c) (map_chars f s)) with (map_chars f (String c s)).
  rewrite all_space_map_chars. destruct (all_space (String c s)); [done|].
  cbn. by rewrite IH.
Qed.

Lemma strip_map_chars (s : string) :
  strip (map_chars f s) = map_chars f (strip s).
Proof. unfold strip. by rewrite lstrip_map_chars, rstrip_map_chars. Qed.

End SpacePreserving.









Lemma upper_idemp (s : string) : upper (upper s) = upper s.
Proof.
  unfold upper. rewrite map_chars_compose.
  apply map_chars_ext, upper_char_idemp.
Qed.



(** X13. The case of what is typed does not matter: the text, its lower
    case and its upper case have the same normalised term. *)
Theorem normalize_ignores_case (text : string) :
  normalize (lower text) = normalize text
  ∧ normalize (upper text) = normalize text.
Proof.
  assert (∀ t, upper (strip (lower t)) = upper (strip t)) as Hl.
  { intros t. unfold lower, upper.
    rewrite strip_map_chars by apply is_space_lower_char.
    rewrite map_chars_compose. apply map_chars_ext, upper_lower_char. }
  assert (∀ t, upper (strip (upper t)) = upper (strip t)) as Hu.
  { intros t. unfold upper at 2.
    rewrite strip_map_chars by apply is_space_upper_char.
    apply upper_idemp. }
  unfold normalize. by rewrite Hl, Hu.
Qed.

Lemma lstrip_all_space (s : string) : all_space s = true → lstrip s = "".
Proof.
  induction s as [|c s IH]; [done|]. cbn. intros [-> Hs]%andb_true_iff.
  by apply IH.
Qed.

Lemma normalize_blank (text : string) :
  all_space text = true → normalize text = "".
Proof.
  intros H. unfold normalize, strip. by rewrite (lstrip_all_space _ H).
Qed.




End SearchTermMore.


(** ** More on the page *)

Section PageMore.
Import Eff Renko App PyStr Sample.

Variable c : catalog.
Variable w : world.
Variable wd : widgets.

(** The chart function gives back a chart or a message, and leaves the
    session alone. *)
Lemma fetch_answer_shape (ticker : string) (st : state) :
  ∃ r (rest : list event),
    fetch_and_plot_renko w ticker st
    = (Ret r, logged st (ev_download w ticker :: rest))
    ∧ Forall (λ e, is_renderer_call e = true) rest
    ∧ ((∃ png, r = (Some png, None)) ∨ (∃ msg, r = (None, Some msg))).
Proof.
  destruct (download w ticker (window_start w) (today w)) as [d|e] eqn:Hd.
  2: { rewrite (fetch_download_fails _ _ _ _ Hd). eexists _, []. eauto. }

  destruct (Frame.raw_empty d) eqn:He.
  { rewrite (fetch_no_data _ _ _ _ Hd He). eexists _, []. eauto. }
  destruct (Frame.too_short (Frame.cleaned d)) eqn:Hs.
  { rewrite (fetch_not_enough _ _ _ _ Hd He Hs). eexists _, []. eauto. }
  destruct (Frame.last_close (Frame.cleaned d)) as [x|e] eqn:Hc.
  2: { rewrite (fetch_close_fails _ _ _ _ _ Hd He Hs Hc). eexists _, []. eauto. }
  rewrite (fetch_renders _ _ _ _ _ Hd He Hs Hc).
  destruct (mpf_plot _ _ _ _) as [f|e];
    [|eexists _, [_]; split; [done|]; split; [by repeat constructor|eauto]].
  destruct (savefig w f) as [buf|e];
    [|eexists _, [_; _]; split; [done|]; split; [by repeat constructor|eauto]].
  destruct (plt_close w f) as [[]|e];
    (eexists _, [_; _; _]; split; [done|]; split; [by repeat constructor|eauto]).
Qed.

(** The chart section once the stock has passed the validation. *)
Lemma show_chart_passes (search_term : string) (st : state) (stock : string) :
  stock_to_plot (default "" (session st)) search_term = Some stock →
  index_selected wd && negb (bool_decide (stock ∈ available_stocks c wd)) = false →
  show_chart c w wd search_term st
  = match fetch_and_plot_renko w stock
            (logged st [Write (status_line c stock);
                        Subheader ("Renko Chart for " +:+ stock)]) with
    | (Ret r, st') => (Ret tt, logged st' [shown_for r])
    | (Raise e, st') => (Raise e, st')
    | (Rerun, st') => (Rerun, st')
    end.
Proof.
  intros Hstock Hpass.
  unfold show_chart, selected_stock. unfold bind at 1. unfold bind at 1.
  unfold get_session at 1. unfold ret at 1. rewrite Hstock, Hpass.
  assert (∀ s, (match tags c stock with
                | [] => emit (Write ("Stock " +:+ stock +:+ " is not tagged in any predefined indices."))
                | _ => emit (Write ("Stock " +:+ stock +:+ " is tagged in: " +:+ join ", " (tags c stock)))
                end) s = emit (Write (status_line c stock)) s) as Hw
    by (intros s; unfold status_line; by destruct (tags c stock)).
  unfold bind at 1. rewrite Hw. unfold emit at 1.
  unfold bind at 1. unfold emit at 1. unfold bind at 1.
  unfold logged. cbn [session log]. rewrite <- !app_assoc. cbn [Datatypes.app].
  match goal with
  | |- context [fetch_and_plot_renko w stock ?s] =>
      destruct (fetch_and_plot_renko w stock s) as [[[[png|] err]|e|] st']
  end; done.
Qed.


End PageMore.


Section PageRuns.
Import Eff Renko App PyStr Sample.

Variable c : catalog.
Variable w : world.
Variable wd : widgets.

Lemma show_chart_returns (search_term : string) (st : state) :
  ∃ es : list event, show_chart c w wd search_term st = (Ret tt, logged st es).
Proof.
  destruct (stock_to_plot (default "" (session st)) search_term)
    as [stock|] eqn:Hstock.
  2: { exists []. unfold show_chart, selected_stock, bind, get_session, ret.
       rewrite Hstock. unfold logged. rewrite app_nil_r. by destruct st. }
  destruct (index_selected wd && negb (bool_decide (stock ∈ available_stocks c wd)))
    eqn:Hpass.
  - exists [ErrorBox validation_message].
    unfold show_chart, selected_stock, bind, get_session, ret.
    by rewrite Hstock, Hpass.
  - rewrite (show_chart_passes c w wd _ _ _ Hstock Hpass).
    destruct (fetch_answer_shape w stock
                (logged st [Write (status_line c stock);
                            Subheader ("Renko Chart for " +:+ stock)]))
      as (r & rest & -> & _).
    eexists. cbv [logged session log]. do 2 f_equal.
    rewrite <- !app_assoc. reflexivity.
Qed.

Lemma app_steps (st : state) :
  app c w wd st
  = match show_suggestions c wd (normalize (search_input wd)) (after_init st) with
    | (Ret _, st') => show_chart c w wd (normalize (search_input wd)) st'
    | (Raise e, st') => (Raise e, st')
    | (Rerun, st') => (Rerun, st')
    end.
Proof. unfold app, bind. by rewrite init_session_runs. Qed.

(** X21. A run of the page never ends in an exception: it runs to the
    end, or is restarted by a click on a suggestion. *)
Theorem page_never_raises (st : state) :
  ∃ st', app c w wd st = (Ret tt, st') ∨ app c w wd st = (Rerun, st').
Proof.
  rewrite app_steps.
  destruct (show_suggestions_log c wd (normalize (search_input wd)) (after_init st))
    as (o & es & st2 & -> & _ & _ & [->|[-> _]]).
  - exists st2. by right.
  - destruct (show_chart_returns (normalize (search_input wd)) st2) as [es' ->].
    eexists. by left.
Qed.

Lemma show_suggestions_unclicked (search_term : string) (st : state) :
  (∀ s, button wd s = false) →
  ∃ es : list event,
    show_suggestions c wd search_term st = (Ret tt, logged st es).
Proof.
  intros Hno. unfold show_suggestions.
  destruct (index_selected wd && truthy search_term).
  2: { exists []. unfold ret, logged. rewrite app_nil_r. by destruct st. }
  destruct (suggestions _ _) as [|s ss].
  { exists []. unfold ret, logged. rewrite app_nil_r. by destruct st. }
  unfold bind at 1. unfold emit at 1. unfold bind at 1.
  rewrite (for_each_buttons_unclicked wd _ _ Hno). unfold emit.
  eexists. cbv [logged session log]. do 2 f_equal.
  rewrite <- !app_assoc. reflexivity.
Qed.

(** X22. A run in which no suggestion is clicked leaves the selected
    stock as it was (the empty string when the session had none): typing
    in the search box never changes or clears the selection. *)
Theorem selection_only_changes_by_click (st : state) :
  (∀ s, button wd s = false) →
  ∃ es : list event,
    app c w wd st
    = (Ret tt, {| session := Some (default "" (session st));
                  log := log st ++ es |}).
Proof.
  intros Hno. rewrite app_steps.
  destruct (show_suggestions_unclicked (normalize (search_input wd))
              (after_init st) Hno) as [es1 ->].
  destruct (show_chart_returns (normalize (search_input wd))
              (logged (after_init st) es1)) as [es2 ->].
  exists (es1 ++ es2)%list. cbv [logged session log after_init].
  destruct st as [[sel|] lg]; cbn; by rewrite <- app_assoc.
Qed.

(** X15. With a blank search box and no selected stock the page shows
    nothing and calls nobody: the run only initialises the session. *)
Theorem blank_page_shows_nothing (st : state) :
  all_space (search_input wd) = true →
  default "" (session st) = "" →
  app c w wd st
  = (Ret tt, {| session := Some ""; log := log st |}).
Proof.
  intros Hblank Hsel. rewrite app_steps, (normalize_blank _ Hblank).
  unfold show_suggestions. rewrite andb_false_r. unfold ret at 1.
  unfold show_chart, selected_stock, bind, get_session, ret.
  destruct st as [[sel|] lg]; cbn in *; by subst.
Qed.

End PageRuns.

Section PageRunsWitnesses.
Import Eff Renko App PyStr Sample.

Lemma selection_only_changes_by_click_witness :
  ∃ es : list event,
    app small_catalog (steady_world (bars "BEL.NS" 10 (of_Z 100)))
        (defense_only "tcs") (mk_state (Some "BEL.NS") [])
    = (Ret tt, {| session := Some "BEL.NS"; log := [] ++ es |}).
Proof.
  apply (selection_only_changes_by_click
           small_catalog (steady_world (bars "BEL.NS" 10 (of_Z 100)))
           (defense_only "tcs") (mk_state (Some "BEL.NS") [])).
  reflexivity.
Defined.

Lemma blank_page_witness :
  app small_catalog (steady_world (bars "BEL.NS" 10 (of_Z 100)))
      (defense_only "   ") fresh
  = (Ret tt, {| session := Some ""; log := [] |}).
Proof.
  apply (blank_page_shows_nothing
           small_catalog (steady_world (bars "BEL.NS" 10 (of_Z 100)))
           (defense_only "   ") fresh);
    reflexivity.
Defined.

End PageRunsWitnesses.


Section Clicks.
Import Eff Renko App PyStr Sample.

Variable c : catalog.
Variable w : world.
Variable wd : widgets.

Lemma for_each_buttons_clicked (xs : list string) (st : state) :
  (∃ x, x ∈ xs ∧ button wd x = true) →
  ∃ s (es : list event) st',
    for_each xs (λ suggestion,
      exec emit (Button suggestion);
      if button wd suggestion
      then exec set_session suggestion; rerun
      else ret tt) st = (Rerun, st')
    ∧ session st' = Some s
    ∧ s ∈ xs
    ∧ button wd s = true
    ∧ log st' = (log st ++ es)%list
    ∧ Forall suggestion_event es.
Proof.
  revert st. induction xs as [|x xs IH]; intros st (y & Hy & Hclick).
  { by apply elem_of_nil in Hy. }
  cbn [for_each]. unfold bind at 1. unfold bind at 1. unfold emit at 1.
  destruct (button wd x) eqn:Hb.
  - unfold bind, set_session, rerun. cbn.
    eexists x, [Button x], _. split; [done|]. cbn.
    split; [done|]. split; [by left|]. split; [done|]. split; [done|].
    by repeat constructor.
  - unfold ret at 1.
    destruct (IH {| session := session st; log := log st ++ [Button x] |})
      as (s & es & st' & -> & Hs & Hin & Hbs & Hlog & Hes).
    { exists y. split; [|done]. apply elem_of_cons in Hy as [->|Hy]; [congruence|done]. }
    exists s, (Button x :: es), st'. split; [done|]. split; [done|].
    split; [by right|]. split; [done|].
    cbn in Hlog. rewrite Hlog, <- app_assoc. split; [done|]. by constructor.
Qed.

(** X16. A click on a suggestion stops the run before the chart
    section: the session now holds a clicked suggestion, which is a
    member of the filter set, the page is run again, and nothing but
    suggestion buttons has been shown. *)
Theorem clicked_suggestion_is_selected (st : state) (s : string) :
  index_selected wd = true →
  normalize (search_input wd) ≠ "" →
  s ∈ suggestions (available_stocks c wd) (normalize (search_input wd)) →
  button wd s = true →
  ∃ s' (es : list event) st',
    app c w wd st = (Rerun, st')
    ∧ session st' = Some s'
    ∧ button wd s' = true
    ∧ s' ∈ available_stocks c wd
    ∧ log st' = (log st ++ es)%list
    ∧ Forall suggestion_event es.
Proof.
  intros Hidx Hterm%truthy_true Hs Hclick.
  rewrite (app_steps c w wd). unfold show_suggestions.
  rewrite Hidx, Hterm. cbn [andb].
  destruct (suggestions _ _) as [|x xs] eqn:Hfound; [by apply elem_of_nil in Hs|].
  unfold bind at 1. unfold emit at 1.
  destruct (for_each_buttons_clicked (sorted (x :: xs))
              {| session := session (after_init st);
                 log := log (after_init st) ++ [OpenSuggestions] |})
    as (s' & es & st' & Hrun & Hsess & Hin & Hb & Hlog & Hes).
  { exists s. split; [|done]. by rewrite elem_of_sorted. }
  unfold bind at 1. rewrite Hrun.
  exists s', (OpenSuggestions :: es), st'. split; [done|]. split; [done|].
  split; [done|]. split.
  - rewrite elem_of_sorted, <- Hfound, elem_of_suggestions in Hin. tauto.
  - cbn in Hlog. destruct (after_init_keeps st) as [_ Hl].
    rewrite Hlog, Hl, <- app_assoc. split; [done|]. by constructor.
Qed.

(** X24. A term that starts with [.NS] has an empty stem, and every
    stock of the filter set is suggested for it. *)
Theorem bare_suffix_suggests_everything
    (available : gset string) (search_term stock : string) :
  String.prefix ".NS" search_term = true →
  stock ∈ available →
  stock ∈ sorted (suggestions available search_term).
Proof.
  intros Hprefix Hstock. rewrite elem_of_sorted, elem_of_suggestions.
  split; [done|]. unfold matches.
  assert (split_head ".NS" search_term = "") as ->
    by (destruct search_term; cbn [split_head]; by rewrite Hprefix).
  by destruct (lower stock).
Qed.

Lemma bare_suffix_witness :
  "BELX.NS" ∈ sorted (suggestions bel_filter_set (normalize ".ns")).
Proof.
  apply bare_suffix_suggests_everything.
  - reflexivity.
  - apply (bool_decide_eq_true_1 _). vm_compute. reflexivity.
Defined.

End Clicks.


Section Tags.
Import Eff Renko App PyStr Sample.

Variable c : catalog.
Variable w : world.
Variable wd : widgets.

Lemma elem_of_available_stocks (stock : string) :
  stock ∈ available_stocks c wd →
  stock ∈ nifty_50 c ∨ stock ∈ nifty_100 c ∨ stock ∈ nifty_200 c
  ∨ stock ∈ nifty_500 c ∨ stock ∈ nifty_defense_stocks c.
Proof.
  unfold available_stocks, update_if.
  destruct (all_checked wd || nifty_50_checked wd),
           (all_checked wd || nifty_100_checked wd),
           (all_checked wd || nifty_200_checked wd),
           (all_checked wd || nifty_500_checked wd),
           (all_checked wd || nifty_defense_checked wd);
    rewrite ?elem_of_union, ?elem_of_list_to_set, ?elem_of_empty; tauto.
Qed.

Lemma tags_nil (stock : string) :
  tags c stock = []
  ↔ ¬ (stock ∈ nifty_50 c) ∧ ¬ (stock ∈ nifty_100 c) ∧ ¬ (stock ∈ nifty_200 c)
    ∧ ¬ (stock ∈ nifty_500 c) ∧ ¬ (stock ∈ nifty_defense_stocks c).
Proof. unfold tags. repeat case_bool_decide; cbn; split; try done; tauto. Qed.

(** X19. The indices named in the status line are exactly those whose
    list holds the stock, in the fixed order Nifty 50, 100, 200, 500,
    Defense; none is named exactly when no list holds it. *)
Theorem tags_are_the_indices_of_the_stock (stock : string) :
  (∀ name,
     name ∈ tags c stock
     ↔ (name = "Nifty 50" ∧ stock ∈ nifty_50 c)
       ∨ (name = "Nifty 100" ∧ stock ∈ nifty_100 c)
       ∨ (name = "Nifty 200" ∧ stock ∈ nifty_200 c)
       ∨ (name = "Nifty 500" ∧ stock ∈ nifty_500 c)
       ∨ (name = "Nifty Defense" ∧ stock ∈ nifty_defense_stocks c))
  ∧ sublist (tags c stock)
            ["Nifty 50"; "Nifty 100"; "Nifty 200"; "Nifty 500"; "Nifty Defense"]
  ∧ (tags c stock = []
     ↔ ¬ (stock ∈ nifty_50 c) ∧ ¬ (stock ∈ nifty_100 c) ∧ ¬ (stock ∈ nifty_200 c)
       ∧ ¬ (stock ∈ nifty_500 c) ∧ ¬ (stock ∈ nifty_defense_stocks c)).
Proof.
  split; [|split; [|apply tags_nil]].
  - intros name. unfold tags.
    repeat case_bool_decide; cbn [Datatypes.app];
      rewrite ?elem_of_cons, ?elem_of_nil; intuition (subst; done).
  - unfold tags. repeat case_bool_decide; cbn [Datatypes.app];
      repeat first [apply sublist_nil | apply sublist_skip | apply sublist_cons].
Qed.

(** X18. A stock of the filter set is in at least one index, so its
    status line is the one that names indices, never the one for a stock
    without tags. *)
Theorem listed_stock_has_tags (stock : string) :
  stock ∈ available_stocks c wd →
  tags c stock ≠ []
  ∧ status_line c stock
    = "Stock " +:+ stock +:+ " is tagged in: " +:+ join ", " (tags c stock).
Proof.
  intros Hin%elem_of_available_stocks.
  assert (tags c stock ≠ []) as Hne by (rewrite tags_nil; tauto).
  split; [done|]. unfold status_line. by destruct (tags c stock).
Qed.

Lemma index_unselected :
  index_selected wd = false → available_stocks c wd = ∅.
Proof.
  unfold index_selected, available_stocks, update_if.
  destruct (nifty_50_checked wd), (nifty_100_checked wd), (nifty_200_checked wd),
    (nifty_500_checked wd), (nifty_defense_checked wd), (all_checked wd); done.
Qed.

(** X17. With no box ticked the filter set is empty and nothing is
    validated: whatever stock is to be plotted goes to the chart
    function. *)
Theorem no_filter_allows_any_stock
    (search_term : string) (st : state) (stock : string) :
  index_selected wd = false →
  stock_to_plot (default "" (session st)) search_term = Some stock →
  available_stocks c wd = ∅
  ∧ ∃ r (rest : list event),
      show_chart c w wd search_term st
      = (Ret tt,
         logged st ([Write (status_line c stock);
                     Subheader ("Renko Chart for " +:+ stock);
                     ev_download w stock] ++ rest ++ [shown_for r])).
Proof.
  intros Hidx Hstock. split; [by apply index_unselected|].
  rewrite (show_chart_passes c w wd _ _ _ Hstock) by by rewrite Hidx.
  destruct (fetch_answer_shape w stock
              (logged st [Write (status_line c stock);
                          Subheader ("Renko Chart for " +:+ stock)]))
    as (r & rest & -> & _).
  exists r, rest. cbv [logged session log]. do 2 f_equal.
  rewrite <- !app_assoc. reflexivity.
Qed.

(** X23. When the provider fails for a stock that passes the validation,
    the page shows the status line, the heading and the error message
    with the provider's text, and the run goes on to its end. *)
Theorem provider_outage_is_shown
    (search_term : string) (st : state) (stock : string) (e : exn) :
  stock_to_plot (default "" (session st)) search_term = Some stock →
  index_selected wd && negb (bool_decide (stock ∈ available_stocks c wd)) = false →
  download w stock (window_start w) (today w) = Fails e →
  show_chart c w wd search_term st
  = (Ret tt,
     logged st [Write (status_line c stock);
                Subheader ("Renko Chart for " +:+ stock);
                ev_download w stock;
                ErrorBox ("Error for " +:+ stock +:+ ": " +:+ exn_str e)]).
Proof.
  intros Hstock Hpass Hd.
  rewrite (show_chart_passes c w wd _ _ _ Hstock Hpass).
  rewrite (fetch_download_fails w stock _ e Hd).
  cbv [logged session log shown_for default]. do 2 f_equal.
  rewrite <- !app_assoc. reflexivity.
Qed.

End Tags.


Section PageMoreWitnesses.
Import Eff Renko App PyStr Sample.


Lemma clicked_suggestion_witness :
  ∃ s' (es : list event) st',
    app small_catalog (steady_world (bars "BEL.NS" 10 (of_Z 100)))
        (clicking "be" "BEL.NS") fresh = (Rerun, st')
    ∧ session st' = Some s'
    ∧ button (clicking "be" "BEL.NS") s' = true
    ∧ s' ∈ available_stocks small_catalog (clicking "be" "BEL.NS")
    ∧ log st' = (log fresh ++ es)%list
    ∧ Forall suggestion_event es.
Proof.
  apply (clicked_suggestion_is_selected
           small_catalog (steady_world (bars "BEL.NS" 10 (of_Z 100)))
           (clicking "be" "BEL.NS") fresh "BEL.NS").
  - reflexivity.
  - discriminate.
  - apply (bool_decide_eq_true_1 _). vm_compute. reflexivity.
  - reflexivity.
Defined.

Lemma no_filter_witness :
  available_stocks small_catalog (unfiltered "infy") = ∅.
Proof.
  apply (no_filter_allows_any_stock
           small_catalog (steady_world (bars "INFY.NS" 10 (of_Z 100)))
           (unfiltered "infy") (normalize "infy") fresh "INFY.NS");
    reflexivity.
Defined.

Lemma listed_stock_witness :
  tags small_catalog "BEL.NS" ≠ [].
Proof.
  apply (listed_stock_has_tags small_catalog (defense_only "bel") "BEL.NS").
  apply (bool_decide_eq_true_1 _). vm_compute. reflexivity.
Defined.

Lemma provider_outage_witness :
  show_chart small_catalog (outage (mk_exn "ConnectionError" "timed out"))
             (unfiltered "infy") (normalize "infy") fresh
  = (Ret tt,
     logged fresh
       [Write (status_line small_catalog "INFY.NS");
        Subheader ("Renko Chart for " +:+ "INFY.NS");
        ev_download (outage (mk_exn "ConnectionError" "timed out")) "INFY.NS";
        ErrorBox ("Error for " +:+ "INFY.NS" +:+ ": " +:+ "timed out")]).
Proof.
  apply (provider_outage_is_shown
           small_catalog (outage (mk_exn "ConnectionError" "timed out"))
           (unfiltered "infy") (normalize "infy") fresh "INFY.NS"
           (mk_exn "ConnectionError" "timed out"));
    reflexivity.
Defined.

End PageMoreWitnesses.
